(** * Insurance-claims agent: the claim-processing pipeline

    A shallow embedding of [app/agent/tools.py], [app/agent/graph.py],
    the [retrieve] method of [app/database/vector_store.py] and the entry
    [process_claim] of [app/main.py], followed by the properties of the
    pipeline controller.

    Conventions of the embedding.
    - Python values are the values [json.loads] can produce ([pyval]).
      A finite float denotes a rational; only truthiness and comparison
      with an integer are used on floats, and both are exact in Python.
    - A Python [str] is a [string]; a character is a code point below 256.
    - Exceptions are values of [exn]; every class modelled here derives
      from [Exception].
    - The completion service, the document collection and the [json]
      decoder are not part of the repository: they are the fields of the
      class [Services], and every property is proved for all instances.
      The services may keep a state of their own ([World]), so that two
      calls with the same arguments need not answer alike.
    - Every computation records its events: the nodes entered, the keys
      assigned in the state and the calls of the services.
    - Calling a [@tool] through [.invoke] first validates the arguments
      against the type hints of the decorated function, as the wrapper of
      [langchain_core] does with pydantic: on the values of [pyval] a
      [str] parameter accepts a str, [Dict[str, Any]] a dict and
      [List[str]] a list of str.  Any other argument raises
      ValidationError out of [.invoke], before the function and its [try]
      are entered.  What the function returns is not validated.
    - A compiled [StateGraph] threads one dict through the nodes along
      the edges.
    - Log messages are not modelled, but the expressions evaluated to
      build them are, since they can raise. *)

From Stdlib Require Import ZArith QArith Lia Ascii String.
From stdpp Require Import base strings list gmap.

Open Scope string_scope.

(** ** Python values *)

Inductive pyfloat :=
| FFin (q : Q)
| FInf (negative : bool)
| FNan.

#[warnings="-register-all"]
Inductive pyval :=
| PNone
| PBool (b : bool)
| PInt (z : Z)
| PFloat (f : pyfloat)
| PStr (s : string)
| PList (l : list pyval)
| PDict (d : list (string * pyval)).

Definition type_name (v : pyval) : string :=
  match v with
  | PNone => "NoneType"
  | PBool _ => "bool"
  | PInt _ => "int"
  | PFloat _ => "float"
  | PStr _ => "str"
  | PList _ => "list"
  | PDict _ => "dict"
  end.

(** ** Exceptions *)

Inductive exn_class :=
| JSONDecodeError
| ValueError
| AttributeError
| TypeError
| KeyError
| ValidationError
| GraphRecursionError
| OtherError.

Record exn := Exn { exn_cls : exn_class; exn_msg : string }.

Inductive result (A : Type) :=
| Ok (a : A)
| Raise (e : exn).
Arguments Ok {A} a.
Arguments Raise {A} e.

Definition is_JSONDecodeError (e : exn) : bool :=
  match exn_cls e with JSONDecodeError => true | _ => false end.

(** [str(e)] *)
Definition str_exn (e : exn) : string := exn_msg e.

(** ** Operations of the language on values *)

(** [bool(v)] *)
Definition py_truthy (v : pyval) : bool :=
  match v with
  | PNone => false
  | PBool b => b
  | PInt z => negb (z =? 0)%Z
  | PFloat (FFin q) => negb (Qeq_bool q 0)
  | PFloat (FInf _) => true
  | PFloat FNan => true
  | PStr s => negb (String.eqb s EmptyString)
  | PList l => match l with [] => false | _ => true end
  | PDict d => match d with [] => false | _ => true end
  end.

(** [a or b] *)
Definition py_or (a b : pyval) : pyval := if py_truthy a then a else b.

(** [v > n] for an integer literal [n] *)
Definition py_gt_int (v : pyval) (n : Z) : result bool :=
  match v with
  | PBool b => Ok (Z.b2z b >? n)%Z
  | PInt z => Ok (z >? n)%Z
  | PFloat (FFin q) => Ok (if Qlt_le_dec (inject_Z n) q then true else false)
  | PFloat (FInf negative) => Ok (negb negative)
  | PFloat FNan => Ok false
  | _ => Raise (Exn TypeError
                  ("'>' not supported between instances of '" +:+ type_name v +:+ "' and 'int'"))
  end.

Fixpoint dict_lookup (d : list (string * pyval)) (k : string) : option pyval :=
  match d with
  | [] => None
  | (k', v) :: d' => if String.eqb k' k then Some v else dict_lookup d' k
  end.

(** [v.get(k, default)] *)
Definition py_get (v : pyval) (k : string) (default : pyval) : result pyval :=
  match v with
  | PDict d => Ok (match dict_lookup d k with Some x => x | None => default end)
  | _ => Raise (Exn AttributeError
                  ("'" +:+ type_name v +:+ "' object has no attribute 'get'"))
  end.

(** [isinstance(v, dict)] *)
Definition is_dict (v : pyval) : bool :=
  match v with PDict _ => true | _ => false end.

(** [isinstance(v, str)] *)
Definition is_str (v : pyval) : bool :=
  match v with PStr _ => true | _ => false end.

(** [len(v)] *)
Definition py_len (v : pyval) : result nat :=
  match v with
  | PStr s => Ok (String.length s)
  | PList l => Ok (length l)
  | PDict d => Ok (length d)
  | _ => Raise (Exn TypeError ("object of type '" +:+ type_name v +:+ "' has no len()"))
  end.

Fixpoint chars (s : string) : list pyval :=
  match s with
  | EmptyString => []
  | String c s' => PStr (String c EmptyString) :: chars s'
  end.

(** the items [for x in v] goes through *)
Definition py_iter (v : pyval) : result (list pyval) :=
  match v with
  | PStr s => Ok (chars s)
  | PList l => Ok l
  | PDict d => Ok (map (fun kv => PStr (fst kv)) d)
  | _ => Raise (Exn TypeError ("'" +:+ type_name v +:+ "' object is not iterable"))
  end.

(** [s[:n]] on a string *)
Fixpoint str_take (n : nat) (s : string) : string :=
  match n, s with
  | S n', String c s' => String c (str_take n' s')
  | _, _ => EmptyString
  end.

(** [v[:n]] *)
Definition py_slice_to (n : nat) (v : pyval) : result pyval :=
  match v with
  | PStr s => Ok (PStr (str_take n s))
  | PList l => Ok (PList (take n l))
  | PDict _ => Raise (Exn TypeError "unhashable type: 'slice'")
  | _ => Raise (Exn TypeError ("'" +:+ type_name v +:+ "' object is not subscriptable"))
  end.

(** [sep.join(l)] *)
Fixpoint str_join (sep : string) (l : list string) : string :=
  match l with
  | [] => EmptyString
  | [x] => x
  | x :: l' => x +:+ sep +:+ str_join sep l'
  end.

Definition newline : string := String "010"%char EmptyString.

(** ** Regular expressions of [re]

    The two patterns of [extract_json] use literals, sequencing,
    alternation, an optional group, one capturing group and starred
    character classes, greedy ([\s*]) and lazy ([.*?]).  [re_match] is the
    backtracking matcher of the [re] module on this fragment: alternatives
    are tried left to right, a greedy star tries the longest repetition
    first, a lazy star the shortest, and the continuation [k] is what
    remains of the pattern. *)

Inductive regex :=
| RLit (s : string)
| RSeq (r1 r2 : regex)
| RAlt (r1 r2 : regex)
| ROpt (r : regex)
| RStar (cls : ascii -> bool)
| RStarLazy (cls : ascii -> bool)
| RGroup (r : regex).

Fixpoint strip_prefix (p s : string) : option string :=
  match p, s with
  | EmptyString, _ => Some s
  | String a p', String b s' => if Ascii.eqb a b then strip_prefix p' s' else None
  | String _ _, EmptyString => None
  end.

Definition or_else {A} (x y : option A) : option A :=
  match x with Some a => Some a | None => y end.

Fixpoint star_greedy {A} (cls : ascii -> bool) (s : string) (k : string -> option A) : option A :=
  match s with
  | String c s' => if cls c then or_else (star_greedy cls s' k) (k s) else k s
  | EmptyString => k s
  end.

Fixpoint star_lazy {A} (cls : ascii -> bool) (s : string) (k : string -> option A) : option A :=
  or_else (k s)
    match s with
    | String c s' => if cls c then star_lazy cls s' k else None
    | EmptyString => None
    end.

(** the text between the start [s] of a match and its end [s'] *)
Definition consumed (s s' : string) : string :=
  str_take (String.length s - String.length s') s.

(** [g] is the text of group 1, if it has matched *)
Fixpoint re_match {A} (r : regex) (s : string) (g : option string)
    (k : string -> option string -> option A) : option A :=
  match r with
  | RLit p => match strip_prefix p s with Some s' => k s' g | None => None end
  | RSeq r1 r2 => re_match r1 s g (fun s' g' => re_match r2 s' g' k)
  | RAlt r1 r2 => or_else (re_match r1 s g k) (re_match r2 s g k)
  | ROpt r1 => or_else (re_match r1 s g k) (k s g)
  | RStar cls => star_greedy cls s (fun s' => k s' g)
  | RStarLazy cls => star_lazy cls s (fun s' => k s' g)
  | RGroup r1 => re_match r1 s g (fun s' _ => k s' (Some (consumed s s')))
  end.

(** [re.search(r, s)]: the leftmost match, as the binding of its group 1 *)
Fixpoint re_search (r : regex) (s : string) : option (option string) :=
  match re_match r s None (fun _ g => Some g) with
  | Some m => Some m
  | None =>
      match s with
      | EmptyString => None
      | String _ s' => re_search r s'
      end
  end.

(** [\s] on [str]: the code points below 256 for which [str.isspace] holds *)
Definition is_space (c : ascii) : bool :=
  let n := nat_of_ascii c in
  (((9 <=? n) && (n <=? 13)) || ((28 <=? n) && (n <=? 32)) || (n =? 133) || (n =? 160))%nat.

(** [.] under [re.DOTALL] *)
Definition any_char (c : ascii) : bool := true.

(** [(\{.*?\}|\[.*?\])] *)
Definition json_group : regex :=
  RGroup (RAlt (RSeq (RLit "{") (RSeq (RStarLazy any_char) (RLit "}")))
               (RSeq (RLit "[") (RSeq (RStarLazy any_char) (RLit "]")))).

(** [```(?:json)?\s*(\{.*?\}|\[.*?\])\s*```] *)
Definition fenced_pattern : regex :=
  RSeq (RLit "```")
    (RSeq (ROpt (RLit "json"))
      (RSeq (RStar is_space)
        (RSeq json_group
          (RSeq (RStar is_space) (RLit "```"))))).

(** [(\{.*?\}|\[.*?\])] *)
Definition bare_pattern : regex := json_group.

(** ** Type hints of the tools

    The parameters of the functions decorated with [@tool] are annotated
    with [str], [Dict[str, Any]] or [List[str]].  [conforms h v] tells
    whether the validation of the wrapper accepts [v] for a parameter
    annotated with [h]; the keys of a [PDict] are strings already. *)

Inductive hint :=
| HStr
| HDict
| HListStr.

Definition conforms (h : hint) (v : pyval) : bool :=
  match h with
  | HStr => is_str v
  | HDict => is_dict v
  | HListStr => match v with PList l => forallb is_str l | _ => false end
  end.

(** the error of the wrapper; of its message, which lists the arguments
    refused, only the heading that names the tool is kept *)
Definition validation_error (tool : string) : exn :=
  Exn ValidationError ("validation error for " +:+ tool).

(** ** Prompts

    [TEMPLATE.format(...)] is kept as the template and its arguments: the
    text sent to the completion service is a function of them. *)

Inductive template :=
| PARSE_CLAIM_PROMPT
| VALIDATE_CLAIM_PROMPT
| GENERATE_POLICY_QUERIES_PROMPT
| GENERATE_RECOMMENDATION_PROMPT
| FINALIZE_DECISION_PROMPT.

Inductive fmt_arg :=
| Fmt (v : pyval)          (* the value, formatted by [str.format] *)
| JsonDumps (v : pyval).   (* [json.dumps(v)] *)

Record prompt := format { tmpl : template; fmt_args : list (string * fmt_arg) }.

(** ** The services outside the repository *)

Class Services := {
  (** whatever the services remember between two calls *)
  World : Type;
  (** [llm.invoke(prompt).content] *)
  llm_invoke : prompt -> World -> result string * World;
  (** [collection.query(query_texts=[query], n_results=n)['documents']] *)
  collection_query : pyval -> Z -> World -> result (option (list (list string))) * World;
  (** [json.loads(text)] *)
  json_loads : string -> result pyval
}.

(** ** What a run does, in order *)

Inductive event :=
| EnterNode (name : string)
| Assign (key : string)
| CallLLM (p : prompt)
| CallQuery (query : pyval) (n_results : Z).

Section Pipeline.
Context `{Services}.

Record cstate := CState { world : World; events : list event }.

(** computations that call the services, record events and may raise *)
Definition M (A : Type) : Type := cstate -> result A * cstate.

Definition ret {A} (a : A) : M A := fun s => (Ok a, s).

Definition raise {A} (e : exn) : M A := fun s => (Raise e, s).

Definition bind {A B} (m : M A) (f : A -> M B) : M B :=
  fun s => match m s with
           | (Ok a, s') => f a s'
           | (Raise e, s') => (Raise e, s')
           end.

(** [try: body  except Exception as e: handler] *)
Definition try_except {A} (body : M A) (handler : exn -> M A) : M A :=
  fun s => match body s with
           | (Ok a, s') => (Ok a, s')
           | (Raise e, s') => handler e s'
           end.

Definition lift {A} (r : result A) : M A := fun s => (r, s).

Definition emit (ev : event) : M unit :=
  fun s => (Ok tt, CState (world s) (events s ++ [ev])%list).

End Pipeline.

Notation "'let*' x ':=' m 'in' k" := (bind m (fun x => k))
  (at level 10, x name, m at level 100, k at level 200, only parsing).

(** the dict of [state.py], with whatever keys have been set so far *)
Abbreviation ClaimState := (gmap string pyval).

Section Tools.
Context `{Services}.

(** [state[k]] *)
Definition getitem (state : ClaimState) (k : string) : M pyval :=
  match state !! k with
  | Some v => ret v
  | None => raise (Exn KeyError ("'" +:+ k +:+ "'"))
  end.

(** [state[k] = v] *)
Definition setitem (k : string) (v : pyval) (state : ClaimState) : M ClaimState :=
  let* _ := emit (Assign k) in ret (<[k := v]> state).

(** [llm.invoke(p)] and the [.content] of the response *)
Definition llm (p : prompt) : M string :=
  fun s => let (r, w) := llm_invoke p (world s) in
           (r, CState w (events s ++ [CallLLM p])%list).

(** [self.collection.query(query_texts=[query], n_results=n)['documents']] *)
Definition query_collection (query : pyval) (n : Z) : M (option (list (list string))) :=
  fun s => let (r, w) := collection_query query n (world s) in
           (r, CState w (events s ++ [CallQuery query n])%list).

(** [t.invoke({...})] for the tool named [name]: the arguments are checked
    against their hints, then the decorated function [func] is called *)
Definition tool_invoke {A} (name : string) (input : list (hint * pyval)) (func : M A) : M A :=
  if forallb (fun a => conforms (fst a) (snd a)) input then func
  else raise (validation_error name).

(** ** [app/agent/tools.py] *)

(** [json.loads(json_match.group(1))] *)
Definition loads_group (m : option string) : result pyval :=
  match m with
  | Some g => json_loads g
  | None => Raise (Exn TypeError
              "the JSON object must be str, bytes or bytearray, not NoneType")
  end.

Definition extract_json (text : string) : result pyval :=
  match json_loads text with
  | Ok v => Ok v
  | Raise e =>
      if is_JSONDecodeError e then
        match re_search fenced_pattern text with
        | Some json_match => loads_group json_match
        | None =>
            match re_search bare_pattern text with
            | Some json_match => loads_group json_match
            | None => Raise (Exn ValueError ("Could not extract JSON from: " +:+ text))
            end
        end
      else Raise e
  end.

Definition parse_claim (claim_json : pyval) : M pyval :=
  try_except
    (let prompt := format PARSE_CLAIM_PROMPT [("claim_json", Fmt claim_json)] in
     let* response := llm prompt in
     let* parsed_data := lift (extract_json response) in
     let* _ := lift (py_get parsed_data "claim_id" (PStr "N/A")) in
     ret parsed_data)
    (fun e => ret (PDict [("error", PStr (str_exn e))])).

Definition is_valid_query (claim_data : pyval) : M pyval :=
  try_except
    (let* claim_id := lift (py_get claim_data "claim_id" (PStr "N/A")) in
     let* policy_holder := lift (py_get claim_data "policy_holder" (PStr "N/A")) in
     let* vendor_name := lift (py_get claim_data "vendor_name" (PStr "N/A")) in
     let* claim_amount := lift (py_get claim_data "claim_amount" (PInt 0)) in
     let prompt := format VALIDATE_CLAIM_PROMPT
                     [("claim_id", Fmt claim_id);
                      ("policy_holder", Fmt policy_holder);
                      ("vendor_name", Fmt vendor_name);
                      ("claim_amount", Fmt claim_amount)] in
     let* response := llm prompt in
     let* validation_result := lift (extract_json response) in
     let* is_valid := lift (py_get validation_result "is_valid" (PBool false)) in
     let* reason := lift (py_get validation_result "reason" (PStr EmptyString)) in
     ret validation_result)
    (fun e => ret (PDict [("is_valid", PBool false);
                          ("reason", PStr ("Validation error: " +:+ str_exn e))])).

Definition generate_policy_queries (claim_data : pyval) : M pyval :=
  try_except
    (let* vendor_name := lift (py_get claim_data "vendor_name" (PStr "N/A")) in
     let* invoice_items := lift (py_get claim_data "invoice_items" (PList [])) in
     let* claim_amount := lift (py_get claim_data "claim_amount" (PInt 0)) in
     let prompt := format GENERATE_POLICY_QUERIES_PROMPT
                     [("vendor_name", Fmt vendor_name);
                      ("invoice_items", JsonDumps invoice_items);
                      ("claim_amount", Fmt claim_amount)] in
     let* response := llm prompt in
     let* queries := lift (extract_json response) in
     let* queries := if is_dict queries
                     then lift (py_get queries "queries" (PList []))
                     else ret queries in
     let* _ := lift (py_len queries) in
     let* _ := lift (py_iter queries) in
     ret queries)
    (fun e => ret (PList [])).

(** [PolicyVectorStore.retrieve] of [app/database/vector_store.py] *)
Definition retrieve (query : pyval) (top_k : Z) : M string :=
  let* _ := lift (py_slice_to 100 query) in
  let* documents := query_collection query top_k in
  match documents with
  | None | Some [] | Some ([] :: _) => ret EmptyString
  | Some (chunks :: _) => ret (str_join (newline +:+ newline) chunks)
  end.

(** the delimiter between the results of two queries *)
Definition delimiter : string := newline +:+ newline +:+ "---" +:+ newline +:+ newline.

(** the body of [for query in queries] *)
Fixpoint retrieve_loop (queries : list pyval) (all_results : list string) : M (list string) :=
  match queries with
  | [] => ret all_results
  | query :: queries' =>
      let* _ := lift (py_slice_to 60 query) in
      let* result := retrieve query 3 in
      retrieve_loop queries'
        (if String.eqb result EmptyString then all_results else (all_results ++ [result])%list)
  end.

Definition retrieve_policy_text (queries : pyval) : M pyval :=
  try_except
    (let* items := lift (py_iter queries) in
     let* all_results := retrieve_loop items [] in
     let combined_text := str_join delimiter all_results in
     ret (PStr combined_text))
    (fun e => ret (PStr EmptyString)).

Definition generate_recommendation (claim_data policy_text : pyval) : M pyval :=
  try_except
    (let* claim_id := lift (py_get claim_data "claim_id" (PStr "N/A")) in
     let* vendor_name := lift (py_get claim_data "vendor_name" (PStr "N/A")) in
     let* claim_amount := lift (py_get claim_data "claim_amount" (PInt 0)) in
     let* invoice_items := lift (py_get claim_data "invoice_items" (PList [])) in
     let* context := lift (py_slice_to 2000 policy_text) in
     let prompt := format GENERATE_RECOMMENDATION_PROMPT
                     [("claim_id", Fmt claim_id);
                      ("vendor_name", Fmt vendor_name);
                      ("claim_amount", Fmt claim_amount);
                      ("invoice_items", JsonDumps invoice_items);
                      ("policy_text", Fmt context)] in
     let* response := llm prompt in
     let* recommendation := lift (extract_json response) in
     let* rec_decision := lift (py_get recommendation "recommendation" (PStr "UNKNOWN")) in
     ret recommendation)
    (fun e => ret (PDict [("recommendation", PStr "ERROR");
                          ("reasoning", PStr (str_exn e))])).

Definition finalize_decision
    (claim_data recommendation recommendation_reasoning price_check_result : pyval) : M pyval :=
  try_except
    (let* claim_id := lift (py_get claim_data "claim_id" (PStr "N/A")) in
     let prompt := format FINALIZE_DECISION_PROMPT
                     [("claim_id", Fmt claim_id);
                      ("recommendation", Fmt recommendation);
                      ("recommendation_reasoning", Fmt recommendation_reasoning);
                      ("price_check_result", Fmt price_check_result)] in
     let* response := llm prompt in
     let* final_decision := lift (extract_json response) in
     let* decision := lift (py_get final_decision "final_decision" (PStr "UNKNOWN")) in
     ret final_decision)
    (fun e => ret (PDict [("final_decision", PStr "ERROR");
                          ("final_reasoning", PStr (str_exn e))])).

(** ** [app/agent/graph.py]: the nodes *)

Definition parse_claim_node (state : ClaimState) : M ClaimState :=
  let* claim_json := getitem state "claim_json" in
  let* result := tool_invoke "parse_claim" [(HStr, claim_json)]
                   (parse_claim claim_json) in
  let* v := lift (py_get result "claim_id" PNone) in
  let* state := setitem "claim_id" v state in
  let* v := lift (py_get result "policy_holder" PNone) in
  let* state := setitem "policy_holder" v state in
  let* v := lift (py_get result "vendor_name" PNone) in
  let* state := setitem "vendor_name" v state in
  let* v := lift (py_get result "invoice_items" PNone) in
  let* state := setitem "invoice_items" v state in
  let* v := lift (py_get result "claim_amount" PNone) in
  let* state := setitem "claim_amount" v state in
  let* state := setitem "current_step" (PStr "parsed") state in
  ret state.

Definition validate_claim_node (state : ClaimState) : M ClaimState :=
  let* claim_id := getitem state "claim_id" in
  let* policy_holder := getitem state "policy_holder" in
  let* vendor_name := getitem state "vendor_name" in
  let* claim_amount := getitem state "claim_amount" in
  let claim_data := PDict [("claim_id", claim_id);
                           ("policy_holder", policy_holder);
                           ("vendor_name", vendor_name);
                           ("claim_amount", claim_amount)] in
  let* result := tool_invoke "is_valid_query" [(HDict, claim_data)]
                   (is_valid_query claim_data) in
  let* v := lift (py_get result "is_valid" (PBool false)) in
  let* state := setitem "is_valid" v state in
  let* v := lift (py_get result "reason" (PStr EmptyString)) in
  let* state := setitem "validation_reason" v state in
  let* state := setitem "current_step" (PStr "validated") state in
  ret state.

Definition generate_queries_node (state : ClaimState) : M ClaimState :=
  let* vendor_name := getitem state "vendor_name" in
  let* invoice_items := getitem state "invoice_items" in
  let* claim_amount := getitem state "claim_amount" in
  let claim_data := PDict [("vendor_name", vendor_name);
                           ("invoice_items", invoice_items);
                           ("claim_amount", claim_amount)] in
  let* queries := tool_invoke "generate_policy_queries" [(HDict, claim_data)]
                    (generate_policy_queries claim_data) in
  let* state := setitem "policy_queries" queries state in
  let* state := setitem "current_step" (PStr "queries_generated") state in
  ret state.

Definition retrieve_policy_node (state : ClaimState) : M ClaimState :=
  let* queries := getitem state "policy_queries" in
  let* policy_text := tool_invoke "retrieve_policy_text" [(HListStr, queries)]
                        (retrieve_policy_text queries) in
  let* state := setitem "retrieved_policy_text" policy_text state in
  let* state := setitem "current_step" (PStr "policy_retrieved") state in
  ret state.

Definition recommendation_node (state : ClaimState) : M ClaimState :=
  let* claim_id := getitem state "claim_id" in
  let* vendor_name := getitem state "vendor_name" in
  let* claim_amount := getitem state "claim_amount" in
  let* invoice_items := getitem state "invoice_items" in
  let claim_data := PDict [("claim_id", claim_id);
                           ("vendor_name", vendor_name);
                           ("claim_amount", claim_amount);
                           ("invoice_items", invoice_items)] in
  let* policy_text := getitem state "retrieved_policy_text" in
  let* result := tool_invoke "generate_recommendation"
                   [(HDict, claim_data); (HStr, policy_text)]
                   (generate_recommendation claim_data policy_text) in
  let* v := lift (py_get result "recommendation" PNone) in
  let* state := setitem "recommendation" v state in
  let* v := lift (py_get result "reasoning" PNone) in
  let* state := setitem "recommendation_reasoning" v state in
  let* state := setitem "current_step" (PStr "recommendation_generated") state in
  ret state.

Definition price_check_node (state : ClaimState) : M ClaimState :=
  let* v := getitem state "claim_amount" in
  let claim_amount := py_or v (PInt 0) in
  let* high := lift (py_gt_int claim_amount 10000) in
  let* state := if high : bool
                then setitem "price_check_result" (PStr "HIGH_AMOUNT_FLAGGED") state
                else setitem "price_check_result" (PStr "WITHIN_NORMAL_RANGE") state in
  let* state := setitem "current_step" (PStr "price_checked") state in
  ret state.

Definition finalize_decision_node (state : ClaimState) : M ClaimState :=
  let* claim_id := getitem state "claim_id" in
  let claim_data := PDict [("claim_id", claim_id)] in
  let* recommendation := getitem state "recommendation" in
  let* recommendation_reasoning := getitem state "recommendation_reasoning" in
  let* price_check_result := getitem state "price_check_result" in
  let* result := tool_invoke "finalize_decision"
                   [(HDict, claim_data); (HStr, recommendation);
                    (HStr, recommendation_reasoning); (HStr, price_check_result)]
                   (finalize_decision claim_data recommendation
                      recommendation_reasoning price_check_result) in
  let* v := lift (py_get result "final_decision" PNone) in
  let* state := setitem "final_decision" v state in
  let* v := lift (py_get result "final_reasoning" PNone) in
  let* state := setitem "final_reasoning" v state in
  let* state := setitem "current_step" (PStr "completed") state in
  ret state.

Definition invalid_claim_node (state : ClaimState) : M ClaimState :=
  let* state := setitem "final_decision" (PStr "INVALID") state in
  let* v := getitem state "validation_reason" in
  let* state := setitem "final_reasoning" v state in
  let* state := setitem "current_step" (PStr "completed") state in
  ret state.

(** ** The conditional edge *)

Definition should_continue_after_validation (state : ClaimState) : M string :=
  let* v := getitem state "is_valid" in
  if py_truthy v then ret "continue" else ret "invalid".

End Tools.

(** ** The graph

    [StateGraph] keeps what the builder calls of
    [create_claims_processing_graph] register; [invoke] is the run of the
    compiled graph: the entry node, then the successor chosen by the
    conditional edge of a node when it has one and by its plain edge
    otherwise, until [END].  [recursion_limit] is the library's bound on
    the number of steps of one run. *)

Section Graph.
Context `{Services}.

Record StateGraph := {
  nodes : list (string * (ClaimState -> M ClaimState));
  entry_point : string;
  edges : list (string * string);
  conditional_edges :
    list (string * ((ClaimState -> M string) * list (string * string)))
}.

Definition END : string := "__end__".

Definition new_StateGraph : StateGraph :=
  {| nodes := []; entry_point := END; edges := []; conditional_edges := [] |}.

Definition add_node (name : string) (action : ClaimState -> M ClaimState)
    (g : StateGraph) : StateGraph :=
  {| nodes := (nodes g ++ [(name, action)])%list;
     entry_point := entry_point g;
     edges := edges g;
     conditional_edges := conditional_edges g |}.

Definition set_entry_point (name : string) (g : StateGraph) : StateGraph :=
  {| nodes := nodes g;
     entry_point := name;
     edges := edges g;
     conditional_edges := conditional_edges g |}.

Definition add_edge (src dst : string) (g : StateGraph) : StateGraph :=
  {| nodes := nodes g;
     entry_point := entry_point g;
     edges := (edges g ++ [(src, dst)])%list;
     conditional_edges := conditional_edges g |}.

Definition add_conditional_edges (src : string) (path : ClaimState -> M string)
    (path_map : list (string * string)) (g : StateGraph) : StateGraph :=
  {| nodes := nodes g;
     entry_point := entry_point g;
     edges := edges g;
     conditional_edges := (conditional_edges g ++ [(src, (path, path_map))])%list |}.

Fixpoint assoc {A} (k : string) (l : list (string * A)) : option A :=
  match l with
  | [] => None
  | (k', a) :: l' => if String.eqb k' k then Some a else assoc k l'
  end.

Definition create_claims_processing_graph : StateGraph :=
  let workflow := new_StateGraph in
  let workflow := add_node "parse_claim" parse_claim_node workflow in
  let workflow := add_node "validate_claim" validate_claim_node workflow in
  let workflow := add_node "generate_queries" generate_queries_node workflow in
  let workflow := add_node "retrieve_policy" retrieve_policy_node workflow in
  let workflow := add_node "recommendation" recommendation_node workflow in
  let workflow := add_node "price_check" price_check_node workflow in
  let workflow := add_node "finalize_decision" finalize_decision_node workflow in
  let workflow := add_node "invalid_claim" invalid_claim_node workflow in
  let workflow := set_entry_point "parse_claim" workflow in
  let workflow := add_edge "parse_claim" "validate_claim" workflow in
  let workflow := add_conditional_edges "validate_claim"
                    should_continue_after_validation
                    [("continue", "generate_queries"); ("invalid", "invalid_claim")]
                    workflow in
  let workflow := add_edge "generate_queries" "retrieve_policy" workflow in
  let workflow := add_edge "retrieve_policy" "recommendation" workflow in
  let workflow := add_edge "recommendation" "price_check" workflow in
  let workflow := add_edge "price_check" "finalize_decision" workflow in
  let workflow := add_edge "finalize_decision" END workflow in
  let workflow := add_edge "invalid_claim" END workflow in
  workflow.

(** the node that runs after [name] has returned [state] *)
Definition successor (g : StateGraph) (name : string) (state : ClaimState) : M string :=
  match assoc name (conditional_edges g) with
  | Some (path, path_map) =>
      let* branch := path state in
      match assoc branch path_map with
      | Some dst => ret dst
      | None => raise (Exn KeyError ("'" +:+ branch +:+ "'"))
      end
  | None =>
      match assoc name (edges g) with
      | Some dst => ret dst
      | None => ret END
      end
  end.

Fixpoint run (g : StateGraph) (steps : nat) (name : string) (state : ClaimState)
    : M ClaimState :=
  match steps with
  | O => raise (Exn GraphRecursionError "Recursion limit reached")
  | S steps' =>
      match assoc name (nodes g) with
      | None => raise (Exn KeyError ("'" +:+ name +:+ "'"))
      | Some action =>
          let* _ := emit (EnterNode name) in
          let* state := action state in
          let* next := successor g name state in
          if String.eqb next END then ret state else run g steps' next state
      end
  end.

Definition recursion_limit : nat := 25.

(** [workflow.compile().invoke(initial_state)] *)
Definition invoke (g : StateGraph) (initial_state : ClaimState) : M ClaimState :=
  run g recursion_limit (entry_point g) initial_state.

Definition claims_graph : StateGraph := create_claims_processing_graph.

(** ** [process_claim] of [app/main.py], from the serialized claim on *)

Definition initial_state (claim_json : string) : ClaimState :=
  <["current_step" := PStr "initialized"]> (<["claim_json" := PStr claim_json]> ∅).

Definition process_claim (claim_json : string) : M ClaimState :=
  try_except (invoke claims_graph (initial_state claim_json)) (fun e => raise e).

End Graph.

(** ** Reading the events of a run *)

Fixpoint nodes_entered (evs : list event) : list string :=
  match evs with
  | [] => []
  | EnterNode n :: evs' => n :: nodes_entered evs'
  | _ :: evs' => nodes_entered evs'
  end.

Fixpoint assignments (evs : list event) : list string :=
  match evs with
  | [] => []
  | Assign k :: evs' => k :: assignments evs'
  | _ :: evs' => assignments evs'
  end.

Fixpoint service_calls (evs : list event) : list event :=
  match evs with
  | [] => []
  | CallLLM p :: evs' => CallLLM p :: service_calls evs'
  | CallQuery q n :: evs' => CallQuery q n :: service_calls evs'
  | _ :: evs' => service_calls evs'
  end.

(** how many times [k] occurs in [l] *)
Fixpoint occurrences (k : string) (l : list string) : nat :=
  match l with
  | [] => 0
  | x :: l' => (if String.eqb x k then 1 else 0) + occurrences k l'
  end.

(** ** Concrete services for worked runs

    [Decoder.loads] decodes the fragment of JSON without [\u] escapes and
    without fractions or exponents, where it agrees with [json.loads] on
    success and failure; the message of a decoding error is not
    reproduced.  [scripted] is a completion service that answers by
    template and a collection that answers by query. *)

Module Decoder.

Definition is_ws (c : ascii) : bool :=
  let n := nat_of_ascii c in ((n =? 32) || (n =? 9) || (n =? 10) || (n =? 13))%nat.

Fixpoint skip_ws (s : string) : string :=
  match s with
  | String c s' => if is_ws c then skip_ws s' else s
  | EmptyString => s
  end.

Definition is_digit (c : ascii) : bool :=
  let n := nat_of_ascii c in ((48 <=? n) && (n <=? 57))%nat.

Definition digit_value (c : ascii) : Z := Z.of_nat (nat_of_ascii c - 48).

Fixpoint scan_digits (s : string) (acc : Z) : Z * string :=
  match s with
  | String c s' => if is_digit c then scan_digits s' (10 * acc + digit_value c)%Z else (acc, s)
  | EmptyString => (acc, s)
  end.

(** a number has no fraction and no exponent in the fragment *)
Definition ends_number (s : string) : bool :=
  match s with
  | String c _ =>
      negb (Ascii.eqb c "."%char || Ascii.eqb c "e"%char || Ascii.eqb c "E"%char)
  | EmptyString => true
  end.

Definition scan_nat (s : string) : option (Z * string) :=
  match s with
  | String c s' =>
      if Ascii.eqb c "0"%char then
        if ends_number s' then Some (0%Z, s') else None
      else if is_digit c then
        let (n, r) := scan_digits s 0%Z in
        if ends_number r then Some (n, r) else None
      else None
  | EmptyString => None
  end.

Definition unescape (c : ascii) : option ascii :=
  if Ascii.eqb c "034"%char then Some "034"%char
  else if Ascii.eqb c "\"%char then Some "\"%char
  else if Ascii.eqb c "/"%char then Some "/"%char
  else if Ascii.eqb c "b"%char then Some "008"%char
  else if Ascii.eqb c "f"%char then Some "012"%char
  else if Ascii.eqb c "n"%char then Some "010"%char
  else if Ascii.eqb c "r"%char then Some "013"%char
  else if Ascii.eqb c "t"%char then Some "009"%char
  else None.

(** the text after an opening quotation mark, up to the closing one *)
Fixpoint scan_string (s : string) : option (string * string) :=
  match s with
  | EmptyString => None
  | String c s' =>
      if Ascii.eqb c "034"%char then Some (EmptyString, s')
      else if Ascii.eqb c "\"%char then
        match s' with
        | String e s'' =>
            match unescape e, scan_string s'' with
            | Some c', Some (t, r) => Some (String c' t, r)
            | _, _ => None
            end
        | EmptyString => None
        end
      else if (nat_of_ascii c <? 32)%nat then None
      else
        match scan_string s' with
        | Some (t, r) => Some (String c t, r)
        | None => None
        end
  end.

Fixpoint dict_set (d : list (string * pyval)) (k : string) (v : pyval)
    : list (string * pyval) :=
  match d with
  | [] => [(k, v)]
  | (k', v') :: d' => if String.eqb k' k then (k, v) :: d' else (k', v') :: dict_set d' k v
  end.

Fixpoint parse_elements (value : string -> option (pyval * string))
    (n : nat) (s : string) (acc : list pyval) : option (list pyval * string) :=
  match n with
  | O => None
  | S n' =>
      match value s with
      | None => None
      | Some (v, r) =>
          match skip_ws r with
          | String c r' =>
              if Ascii.eqb c ","%char then parse_elements value n' r' (acc ++ [v])%list
              else if Ascii.eqb c "]"%char then Some ((acc ++ [v])%list, r')
              else None
          | EmptyString => None
          end
      end
  end.

Fixpoint parse_members (value : string -> option (pyval * string))
    (n : nat) (s : string) (acc : list (string * pyval))
    : option (list (string * pyval) * string) :=
  match n with
  | O => None
  | S n' =>
      match skip_ws s with
      | String q s1 =>
          if Ascii.eqb q "034"%char then
            match scan_string s1 with
            | None => None
            | Some (k, s2) =>
                match skip_ws s2 with
                | String c s3 =>
                    if Ascii.eqb c ":"%char then
                      match value s3 with
                      | None => None
                      | Some (v, r) =>
                          match skip_ws r with
                          | String c' r' =>
                              if Ascii.eqb c' ","%char
                              then parse_members value n' r' (dict_set acc k v)
                              else if Ascii.eqb c' "}"%char
                              then Some (dict_set acc k v, r')
                              else None
                          | EmptyString => None
                          end
                      end
                    else None
                | EmptyString => None
                end
            end
          else None
      | EmptyString => None
      end
  end.

Fixpoint parse_value (fuel : nat) (s : string) : option (pyval * string) :=
  match fuel with
  | O => None
  | S fuel' =>
      match skip_ws s with
      | EmptyString => None
      | String c r as s0 =>
          if Ascii.eqb c "{"%char then
            match skip_ws r with
            | String c' r' =>
                if Ascii.eqb c' "}"%char then Some (PDict [], r')
                else match parse_members (parse_value fuel') fuel' r [] with
                     | Some (d, r'') => Some (PDict d, r'')
                     | None => None
                     end
            | EmptyString => None
            end
          else if Ascii.eqb c "["%char then
            match skip_ws r with
            | String c' r' =>
                if Ascii.eqb c' "]"%char then Some (PList [], r')
                else match parse_elements (parse_value fuel') fuel' r [] with
                     | Some (l, r'') => Some (PList l, r'')
                     | None => None
                     end
            | EmptyString => None
            end
          else if Ascii.eqb c "034"%char then
            match scan_string r with
            | Some (t, r') => Some (PStr t, r')
            | None => None
            end
          else if Ascii.eqb c "-"%char then
            match strip_prefix "Infinity" r with
            | Some r' => Some (PFloat (FInf true), r')
            | None =>
                match scan_nat r with
                | Some (n, r') => Some (PInt (- n), r')
                | None => None
                end
            end
          else
            match strip_prefix "null" s0, strip_prefix "true" s0,
                  strip_prefix "false" s0, strip_prefix "NaN" s0,
                  strip_prefix "Infinity" s0 with
            | Some r', _, _, _, _ => Some (PNone, r')
            | _, Some r', _, _, _ => Some (PBool true, r')
            | _, _, Some r', _, _ => Some (PBool false, r')
            | _, _, _, Some r', _ => Some (PFloat FNan, r')
            | _, _, _, _, Some r' => Some (PFloat (FInf false), r')
            | _, _, _, _, _ =>
                match scan_nat s0 with
                | Some (n, r') => Some (PInt n, r')
                | None => None
                end
            end
      end
  end.

Definition loads (s : string) : result pyval :=
  match parse_value (S (String.length s)) s with
  | Some (v, r) =>
      match skip_ws r with
      | EmptyString => Ok v
      | _ => Raise (Exn JSONDecodeError "Extra data")
      end
  | None => Raise (Exn JSONDecodeError "Expecting value")
  end.

End Decoder.

(** quotation marks of a text are written as apostrophes *)
Fixpoint quoted (s : string) : string :=
  match s with
  | EmptyString => EmptyString
  | String c s' => String (if Ascii.eqb c "'"%char then "034"%char else c) (quoted s')
  end.

Definition scripted (script : template -> result string)
    (index : pyval -> result (option (list (list string)))) : Services :=
  {| World := unit;
     llm_invoke := fun p w => (script (tmpl p), w);
     collection_query := fun q n w => (index q, w);
     json_loads := Decoder.loads |}.

(** the state of a run before its first event *)
Definition start (S : Services) (w : World) : cstate := CState w [].

(** ** Vocabulary of the statements *)

(** the value a decoded object gives for a key, [None] when it has none *)
Definition field (d : list (string * pyval)) (k : string) : pyval :=
  match dict_lookup d k with Some v => v | None => PNone end.

(** the state the parse node leaves, from the dict [parse_claim] returned *)
Definition parsed_state (state : ClaimState) (d : list (string * pyval)) : ClaimState :=
  <["current_step" := PStr "parsed"]>
    (<["claim_amount" := field d "claim_amount"]>
      (<["invoice_items" := field d "invoice_items"]>
        (<["vendor_name" := field d "vendor_name"]>
          (<["policy_holder" := field d "policy_holder"]>
            (<["claim_id" := field d "claim_id"]> state))))).

(** the state the validation node leaves *)
Definition validated_state (state : ClaimState) (is_valid reason : pyval) : ClaimState :=
  <["current_step" := PStr "validated"]>
    (<["validation_reason" := reason]> (<["is_valid" := is_valid]> state)).

(** the state the reject node leaves *)
Definition rejected_state (state : ClaimState) (reason : pyval) : ClaimState :=
  <["current_step" := PStr "completed"]>
    (<["final_reasoning" := reason]> (<["final_decision" := PStr "INVALID"]> state)).

(** the state the price-check node leaves *)
Definition price_checked_state (state : ClaimState) (high : bool) : ClaimState :=
  <["current_step" := PStr "price_checked"]>
    (<["price_check_result" :=
         PStr (if high then "HIGH_AMOUNT_FLAGGED" else "WITHIN_NORMAL_RANGE")]> state).

(** numbers, and what [>] means on them *)
Inductive number :=
| NInt (z : Z)
| NFloat (f : pyfloat).

Definition number_value (n : number) : pyval :=
  match n with NInt z => PInt z | NFloat f => PFloat f end.

Definition exceeds (n : number) (bound : Z) : Prop :=
  match n with
  | NInt z => (bound < z)%Z
  | NFloat (FFin q) => (inject_Z bound < q)%Q
  | NFloat (FInf negative) => negative = false
  | NFloat FNan => False
  end.

Definition recommendation_prompt
    (claim_id vendor_name claim_amount invoice_items : pyval) (context : string) : prompt :=
  format GENERATE_RECOMMENDATION_PROMPT
    [("claim_id", Fmt claim_id); ("vendor_name", Fmt vendor_name);
     ("claim_amount", Fmt claim_amount); ("invoice_items", JsonDumps invoice_items);
     ("policy_text", Fmt (PStr context))].

Definition is_Raise {A} (r : result A) : bool :=
  match r with Raise _ => true | Ok _ => false end.

(** *** The retrieval stage, as the specification words it

    For each query in turn the collection is asked for its 3 best
    matches; the text of a query is its matches joined by a blank line,
    and is empty when there are none.  [fetch_all] stops at the first
    query on which the collection raises. *)

Definition hits_text (documents : option (list (list string))) : string :=
  match documents with
  | Some (chunks :: _) => str_join (newline +:+ newline) chunks
  | _ => EmptyString
  end.

Definition top3 (queries : list string) : list event :=
  map (fun q => CallQuery (PStr q) 3) queries.

Definition nonempty (s : string) : bool := negb (String.eqb s EmptyString).

(** the texts of the queries, the state of the services afterwards and
    the queries that were sent *)
Fixpoint fetch_all `{Services} (queries : list string) (w : World)
    : result (list string) * World * list string :=
  match queries with
  | [] => (Ok [], w, [])
  | q :: queries' =>
      match collection_query (PStr q) 3 w with
      | (Ok documents, w1) =>
          match fetch_all queries' w1 with
          | (Ok texts, w2, sent) => (Ok (hits_text documents :: texts), w2, q :: sent)
          | (Raise e, w2, sent) => (Raise e, w2, q :: sent)
          end
      | (Raise e, w1) => (Raise e, w1, [q])
      end
  end.

(** *** What the stages make of an answer of the completion service *)

Definition validate_prompt (claim_id policy_holder vendor_name claim_amount : pyval) : prompt :=
  format VALIDATE_CLAIM_PROMPT
    [("claim_id", Fmt claim_id); ("policy_holder", Fmt policy_holder);
     ("vendor_name", Fmt vendor_name); ("claim_amount", Fmt claim_amount)].

Definition queries_prompt (vendor_name invoice_items claim_amount : pyval) : prompt :=
  format GENERATE_POLICY_QUERIES_PROMPT
    [("vendor_name", Fmt vendor_name); ("invoice_items", JsonDumps invoice_items);
     ("claim_amount", Fmt claim_amount)].

Definition no_get (v : pyval) : exn :=
  Exn AttributeError ("'" +:+ type_name v +:+ "' object has no attribute 'get'").

Definition validation_failed (e : exn) : pyval * pyval :=
  (PBool false, PStr ("Validation error: " +:+ str_exn e)).

(** the values stored under [is_valid] and [validation_reason] *)
Definition validation_answer `{Services} (r : result string) : pyval * pyval :=
  match r with
  | Raise e => validation_failed e
  | Ok response =>
      match extract_json response with
      | Raise e => validation_failed e
      | Ok (PDict d) =>
          (match dict_lookup d "is_valid" with Some v => v | None => PBool false end,
           match dict_lookup d "reason" with Some v => v | None => PStr EmptyString end)
      | Ok v => validation_failed (no_get v)
      end
  end.

(** the values that have a length *)
Definition sized (v : pyval) : bool :=
  match v with PStr _ | PList _ | PDict _ => true | _ => false end.

(** the value stored under [policy_queries] *)
Definition queries_answer `{Services} (r : result string) : pyval :=
  match r with
  | Raise _ => PList []
  | Ok response =>
      match extract_json response with
      | Raise _ => PList []
      | Ok v =>
          let queries :=
            match v with
            | PDict d => match dict_lookup d "queries" with Some q => q | None => PList [] end
            | _ => v
            end in
          if sized queries then queries else PList []
      end
  end.

(** the state of the services and the events once [name] has been entered *)
Definition entering `{Services} (name : string) (s : cstate) : cstate :=
  CState (world s) (events s ++ [EnterNode name])%list.

Definition accept_path : list string :=
  ["generate_queries"; "retrieve_policy"; "recommendation"; "price_check";
   "finalize_decision"].

Definition reject_events : list event :=
  EnterNode "invalid_claim" ::
  map Assign ["final_decision"; "final_reasoning"; "current_step"].

(** *** The accept branch, event by event *)

Definition parse_prompt (claim_json : string) : prompt :=
  format PARSE_CLAIM_PROMPT [("claim_json", Fmt (PStr claim_json))].

Definition finalize_prompt
    (claim_id recommendation reasoning price_check_result : pyval) : prompt :=
  format FINALIZE_DECISION_PROMPT
    [("claim_id", Fmt claim_id); ("recommendation", Fmt recommendation);
     ("recommendation_reasoning", Fmt reasoning);
     ("price_check_result", Fmt price_check_result)].

(** the values stored under [recommendation] and [recommendation_reasoning] *)
Definition recommendation_answer `{Services} (r : result string) : pyval * pyval :=
  let failed e := (PStr "ERROR", PStr (str_exn e)) in
  match r with
  | Raise e => failed e
  | Ok response =>
      match extract_json response with
      | Raise e => failed e
      | Ok (PDict d) => (field d "recommendation", field d "reasoning")
      | Ok v => failed (no_get v)
      end
  end.

(** the values stored under [final_decision] and [final_reasoning] *)
Definition finalize_answer `{Services} (r : result string) : pyval * pyval :=
  let failed e := (PStr "ERROR", PStr (str_exn e)) in
  match r with
  | Raise e => failed e
  | Ok response =>
      match extract_json response with
      | Raise e => failed e
      | Ok (PDict d) => (field d "final_decision", field d "final_reasoning")
      | Ok v => failed (no_get v)
      end
  end.

Definition is_collection_call (ev : event) : bool :=
  match ev with CallQuery _ _ => true | _ => false end.

(** events that are calls of the collection only *)
Definition collection_only (evs : list event) : Prop :=
  Forall (fun ev => is_collection_call ev = true) evs.

(** the events of the accept branch up to the call of the retrieval tool *)
Definition events_to_retrieval (queries : prompt) : list event :=
  [EnterNode "generate_queries"; CallLLM queries;
   Assign "policy_queries"; Assign "current_step";
   EnterNode "retrieve_policy"].

(** the events of the accept branch up to the comparison of the
    price-check node, around the calls [calls] of the retrieval tool *)
Definition events_to_price_check (queries recommend : prompt) (calls : list event)
    : list event :=
  (events_to_retrieval queries ++ calls ++
   [Assign "retrieved_policy_text"; Assign "current_step";
    EnterNode "recommendation"; CallLLM recommend;
    Assign "recommendation"; Assign "recommendation_reasoning"; Assign "current_step";
    EnterNode "price_check"])%list.

(** from the comparison to the call of the finalize tool *)
Definition events_to_finalize : list event :=
  [Assign "price_check_result"; Assign "current_step"; EnterNode "finalize_decision"].

Definition events_of_finalize (finalize : prompt) : list event :=
  [CallLLM finalize;
   Assign "final_decision"; Assign "final_reasoning"; Assign "current_step"].

(** the state at the price-check node *)
Definition recommended_state (state : ClaimState) (queries : pyval) (text : string)
    (recommendation reasoning : pyval) : ClaimState :=
  <["current_step" := PStr "recommendation_generated"]>
    (<["recommendation_reasoning" := reasoning]>
      (<["recommendation" := recommendation]>
        (<["current_step" := PStr "policy_retrieved"]>
          (<["retrieved_policy_text" := PStr text]>
            (<["current_step" := PStr "queries_generated"]>
              (<["policy_queries" := queries]> state)))))).

(** the state the finalize node leaves *)
Definition finalized_state (state : ClaimState) (decision reasoning : pyval) : ClaimState :=
  <["current_step" := PStr "completed"]>
    (<["final_reasoning" := reasoning]> (<["final_decision" := decision]> state)).

(** the accept branch when the comparison of the price-check node raises *)
Definition stopped_at_price_check : list string :=
  ["generate_queries"; "retrieve_policy"; "recommendation"; "price_check"].

(** the accept branch when the retrieval tool refuses its argument *)
Definition stopped_at_retrieval : list string :=
  ["generate_queries"; "retrieve_policy"].

(** *** Shapes of a response *)

Fixpoint has_char (c : ascii) (s : string) : bool :=
  match s with
  | EmptyString => false
  | String c' s' => Ascii.eqb c' c || has_char c s'
  end.

Fixpoint all_space (s : string) : bool :=
  match s with
  | EmptyString => true
  | String c s' => is_space c && all_space s'
  end.

(** no opening brace or bracket occurs in [s] *)
Definition no_opening (s : string) : bool :=
  negb (has_char "{"%char s) && negb (has_char "["%char s).

Fixpoint skip_spaces (s : string) : string :=
  match s with
  | String c s' => if is_space c then skip_spaces s' else s
  | EmptyString => s
  end.

(** the two kinds of JSON text the patterns look for *)
Inductive bracket := Brace | Square.

Definition opening (b : bracket) : ascii :=
  match b with Brace => "{"%char | Square => "["%char end.

Definition closing (b : bracket) : ascii :=
  match b with Brace => "}"%char | Square => "]"%char end.

(** the serialization of an object or an array, around its [body] *)
Definition enclosed (b : bracket) (body : string) : string :=
  String (opening b) (body +:+ String (closing b) EmptyString).

Definition backtick : ascii := "`"%char.

(** [s] in a json code block, between [pre] and [post] *)
Definition fenced (pre ws1 s ws2 post : string) : string :=
  pre +:+ "```json" +:+ ws1 +:+ s +:+ ws2 +:+ "```" +:+ post.

Definition raises_decode_error `{Services} (text : string) : Prop :=
  exists e, json_loads text = Raise e /\ is_JSONDecodeError e = true.

(** one alternative of the group, written out: the opening bracket, the
    shortest text up to a closing bracket after which [k] matches *)
Definition bracketed {A} (b : bracket) (s : string) (g : option string)
    (k : string -> option string -> option A) : option A :=
  match strip_prefix (String (opening b) EmptyString) s with
  | Some s1 =>
      star_lazy any_char s1
        (fun s2 =>
           match strip_prefix (String (closing b) EmptyString) s2 with
           | Some s3 => k s3 (Some (consumed s s3))
           | None => None
           end)
  | None => None
  end.

(** the fenced pattern after the opening fence and the optional tag *)
Definition fence_tail {A} (s : string) (g : option string)
    (k : string -> option string -> option A) : option A :=
  star_greedy is_space s
    (fun s1 =>
       re_match json_group s1 g
         (fun s2 g' =>
            star_greedy is_space s2
              (fun s3 => match strip_prefix "```" s3 with
                         | Some s4 => k s4 g'
                         | None => None
                         end))).

(** ** Worked scenarios *)

Module Scenario.

Definition no_documents (q : pyval) : result (option (list (list string))) := Ok None.

(** the completion service is down *)
Definition outage : Services :=
  scripted (fun _ => Raise (Exn OtherError "Connection error.")) no_documents.

(** the answers of a run that is accepted, for a parsed claim amount *)
Definition answers (amount queries : string) (t : template) : result string :=
  match t with
  | PARSE_CLAIM_PROMPT =>
      Ok (quoted "{'claim_id': 'CLM-1', 'policy_holder': 'Jane', "
          +:+ quoted "'vendor_name': 'AutoFix', 'invoice_items': [], 'claim_amount': "
          +:+ amount +:+ "}")
  | VALIDATE_CLAIM_PROMPT => Ok (quoted "{'is_valid': true, 'reason': ''}")
  | GENERATE_POLICY_QUERIES_PROMPT => Ok queries
  | GENERATE_RECOMMENDATION_PROMPT =>
      Ok (quoted "{'recommendation': 'APPROVE', 'reasoning': 'covered'}")
  | FINALIZE_DECISION_PROMPT =>
      Ok (quoted "{'final_decision': 'APPROVED', 'final_reasoning': 'covered'}")
  end.

(** the amount comes back as a number, and no query is generated *)
Definition numeric_amount : Services := scripted (answers "50" "[]") no_documents.

(** the amount comes back as a string *)
Definition string_amount : Services :=
  scripted (answers (quoted "'550'") "[]") no_documents.

(** four queries come back *)
Definition four_queries : Services :=
  scripted (answers "50" (quoted "['towing', 'repairs', 'limits', 'vendors']")) no_documents.

(** a collection that has one chunk for every query but [limits], on which it fails *)
Definition failing_index (q : pyval) : result (option (list (list string))) :=
  match q with
  | PStr t =>
      if String.eqb t "limits" then Raise (Exn OtherError "index unavailable")
      else Ok (Some [["chunk about " +:+ t]])
  | _ => Ok None
  end.

Definition failing_collection : Services :=
  scripted (answers "50" (quoted "['towing', 'limits', 'vendors']")) failing_index.

(** a collection with two chunks about towing and nothing else *)
Definition towing_index (q : pyval) : result (option (list (list string))) :=
  match q with
  | PStr t =>
      if String.eqb t "towing" then Ok (Some [["towing is covered"; "up to 100 miles"]])
      else Ok (Some [[]])
  | _ => Ok None
  end.

Definition towing_collection : Services :=
  scripted (answers "50" (quoted "['towing', 'repairs']")) towing_index.

Definition claim : string := quoted "{'claim_id': 'CLM-1', 'total_amount': 50}".

(** the body of an answer of the validation prompt *)
Definition object_body : string := quoted "'is_valid': true, 'reason': ''".

(** the body of an object that holds another object *)
Definition nested_body : string := quoted "'a': {'b': 1}".

(** the recommendation comes back as an object without its two fields *)
Definition empty_recommendation : Services :=
  scripted (fun t => match t with
                     | GENERATE_RECOMMENDATION_PROMPT => Ok "{}"
                     | _ => answers "50" "[]" t
                     end) no_documents.

(** the queries come back as one JSON string *)
Definition string_queries : Services :=
  scripted (answers "50" (quoted "'towing'")) no_documents.

(** a state at the recommendation stage *)
Definition at_recommendation : ClaimState :=
  <["retrieved_policy_text" := PStr "towing is covered"]>
    (<["invoice_items" := PList []]>
      (<["claim_amount" := PInt 50]>
        (<["vendor_name" := PStr "AutoFix"]>
          (<["claim_id" := PStr "CLM-1"]> ∅)))).

End Scenario.

(** * Properties *)

(** ** Strings and the matcher *)

Lemma append_cons (c : ascii) (a b : string) : String c a +:+ b = String c (a +:+ b).
Proof. reflexivity. Qed.

Lemma append_nil_l (b : string) : EmptyString +:+ b = b.
Proof. reflexivity. Qed.

Lemma append_assoc' (a b c : string) : (a +:+ b) +:+ c = a +:+ (b +:+ c).
Proof.
  induction a as [|x a IH]; [reflexivity|].
  rewrite !append_cons. f_equal. exact IH.
Qed.

Lemma length_append' (a b : string) :
  String.length (a +:+ b) = String.length a + String.length b.
Proof.
  induction a as [|x a IH]; [reflexivity|].
  rewrite append_cons. simpl. f_equal. exact IH.
Qed.

Lemma str_take_length (n : nat) (s : string) : String.length (str_take n s) <= n.
Proof.
  revert s. induction n as [|n IH]; intros [|c s]; simpl; try lia.
  specialize (IH s). lia.
Qed.

Lemma str_take_prefix (n : nat) (s : string) : exists rest, s = str_take n s +:+ rest.
Proof.
  revert s. induction n as [|n IH]; intros s.
  - exists s. destruct s; reflexivity.
  - destruct s as [|c s]; [exists EmptyString; reflexivity|].
    destruct (IH s) as [r Hr]. exists r.
    change (String c s = String c (str_take n s +:+ r)). f_equal. exact Hr.
Qed.

Lemma str_take_app (a b : string) : str_take (String.length a) (a +:+ b) = a.
Proof.
  induction a as [|x a IH].
  - rewrite append_nil_l. destruct b; reflexivity.
  - change (String x (str_take (String.length a) (a +:+ b)) = String x a).
    f_equal. exact IH.
Qed.

Lemma consumed_app (a b : string) : consumed (a +:+ b) b = a.
Proof.
  unfold consumed. rewrite length_append'.
  replace (String.length a + String.length b - String.length b) with (String.length a) by lia.
  apply str_take_app.
Qed.

Lemma or_else_none_r {A} (x : option A) : or_else x None = x.
Proof. destruct x; reflexivity. Qed.

Lemma strip_prefix_app (p s : string) : strip_prefix p (p +:+ s) = Some s.
Proof.
  induction p as [|c p IH]; [destruct s; reflexivity|].
  rewrite append_cons. simpl. rewrite Ascii.eqb_refl. exact IH.
Qed.

Lemma strip_prefix_head (c c' : ascii) (p s : string) :
  Ascii.eqb c c' = false -> strip_prefix (String c p) (String c' s) = None.
Proof. intros Hne. simpl. rewrite Hne. reflexivity. Qed.

Lemma space_not_backtick (c : ascii) : is_space c = true -> Ascii.eqb backtick c = false.
Proof.
  intros Hs. destruct (Ascii.eqb backtick c) eqn:E; [|reflexivity].
  apply Ascii.eqb_eq in E. subst c. discriminate Hs.
Qed.

Lemma star_greedy_cons {A} (cls : ascii -> bool) (c : ascii) (s : string)
    (k : string -> option A) :
  star_greedy cls (String c s) k =
    if cls c then or_else (star_greedy cls s k) (k (String c s)) else k (String c s).
Proof. reflexivity. Qed.

Lemma star_lazy_cons {A} (cls : ascii -> bool) (c : ascii) (s : string)
    (k : string -> option A) :
  star_lazy cls (String c s) k =
    or_else (k (String c s)) (if cls c then star_lazy cls s k else None).
Proof. reflexivity. Qed.

Lemma re_search_cons (r : regex) (c : ascii) (s : string) :
  re_search r (String c s) =
    match re_match r (String c s) None (fun _ g => Some g) with
    | Some m => Some m
    | None => re_search r s
    end.
Proof. reflexivity. Qed.

Lemma skip_spaces_cons (c : ascii) (s : string) :
  skip_spaces (String c s) = if is_space c then skip_spaces s else String c s.
Proof. reflexivity. Qed.

Lemma skip_spaces_length (t : string) : String.length (skip_spaces t) <= String.length t.
Proof.
  induction t as [|a t IHt]; [reflexivity|].
  rewrite skip_spaces_cons. destruct (is_space a); simpl; lia.
Qed.

(** a greedy run of spaces stops where the spaces stop, when the rest of
    the pattern matches there *)
Lemma star_greedy_spaces {A} (ws rest : string) (k : string -> option A) (x : A) :
  all_space ws = true ->
  skip_spaces rest = rest ->
  k rest = Some x ->
  star_greedy is_space (ws +:+ rest) k = Some x.
Proof.
  intros Hws Hrest Hk. induction ws as [|c ws IH].
  - rewrite append_nil_l. destruct rest as [|c r]; [exact Hk|].
    rewrite star_greedy_cons. rewrite skip_spaces_cons in Hrest.
    destruct (is_space c); [|exact Hk].
    (* the rest would start with a space, which [skip_spaces] removes *)
    exfalso. pose proof (skip_spaces_length r) as Hlen.
    rewrite Hrest in Hlen. simpl in Hlen. lia.
  - simpl in Hws. apply andb_prop in Hws as [Hc Hws].
    rewrite append_cons, star_greedy_cons, Hc, (IH Hws). reflexivity.
Qed.

(** [\s*] followed by the closing fence: the fence must follow the spaces *)
Lemma star_greedy_fence {A} (t : string) (k : string -> option A) :
  star_greedy is_space t
    (fun s' => match strip_prefix "```" s' with Some r => k r | None => None end) =
  match strip_prefix "```" (skip_spaces t) with Some r => k r | None => None end.
Proof.
  induction t as [|c t IH]; [reflexivity|].
  rewrite star_greedy_cons, skip_spaces_cons. destruct (is_space c) eqn:Hc; [|reflexivity].
  rewrite IH. rewrite (strip_prefix_head _ _ _ _ (space_not_backtick _ Hc)).
  apply or_else_none_r.
Qed.

(** a lazy [.*?] ends at the first place where the rest of the pattern matches *)
Lemma star_lazy_first {A} (a u : string) (k : string -> option A) :
  (forall a1 c a2, a = a1 +:+ String c a2 -> k (String c a2 +:+ u) = None) ->
  star_lazy any_char (a +:+ u) k = star_lazy any_char u k.
Proof.
  induction a as [|c a IH]; intros Hfail; [reflexivity|].
  rewrite append_cons, star_lazy_cons. rewrite <- append_cons.
  rewrite (Hfail EmptyString c a eq_refl). simpl or_else. apply IH.
  intros a1 c' a2 ->. apply (Hfail (String c a1) c' a2). reflexivity.
Qed.

Lemma star_lazy_here {A} (u : string) (k : string -> option A) (x : A) :
  k u = Some x -> star_lazy any_char u k = Some x.
Proof.
  intros Hk. destruct u as [|c u]; [simpl; rewrite Hk; reflexivity|].
  rewrite star_lazy_cons, Hk. reflexivity.
Qed.

Lemma has_char_app (c : ascii) (a b : string) :
  has_char c (a +:+ b) = has_char c a || has_char c b.
Proof.
  induction a as [|x a IH]; [reflexivity|].
  rewrite append_cons. simpl. rewrite IH. apply orb_assoc.
Qed.

(** the search moves on while the pattern cannot start *)
Lemma re_search_skip (r : regex) (pre s : string) :
  (forall a1 c a2, pre = a1 +:+ String c a2 ->
     re_match r (String c a2 +:+ s) None (fun _ g => Some g) = None) ->
  re_search r (pre +:+ s) = re_search r s.
Proof.
  induction pre as [|c pre IH]; intros Hfail; [reflexivity|].
  rewrite append_cons, re_search_cons. rewrite <- append_cons.
  rewrite (Hfail EmptyString c pre eq_refl). apply IH.
  intros a1 c' a2 ->. apply (Hfail (String c a1) c' a2). reflexivity.
Qed.

Lemma re_search_here (r : regex) (s : string) (m : option string) :
  re_match r s None (fun _ g => Some g) = Some m -> re_search r s = Some m.
Proof.
  intros Hm. destruct s as [|c s]; [simpl; rewrite Hm; reflexivity|].
  rewrite re_search_cons, Hm. reflexivity.
Qed.

(** ** The two patterns of [extract_json] *)

Lemma json_group_eq {A} (s : string) (g : option string)
    (k : string -> option string -> option A) :
  re_match json_group s g k = or_else (bracketed Brace s g k) (bracketed Square s g k).
Proof. reflexivity. Qed.

Lemma fenced_pattern_eq {A} (s : string) (g : option string)
    (k : string -> option string -> option A) :
  re_match fenced_pattern s g k =
    match strip_prefix "```" s with
    | Some s1 =>
        or_else
          (match strip_prefix "json" s1 with
           | Some s2 => fence_tail s2 g k
           | None => None
           end)
          (fence_tail s1 g k)
    | None => None
    end.
Proof. reflexivity. Qed.

Lemma has_char_split (c x : ascii) (a1 a2 s : string) :
  s = a1 +:+ String x a2 -> has_char c s = false -> Ascii.eqb x c = false.
Proof.
  intros -> Hs. rewrite has_char_app in Hs. apply orb_false_elim in Hs as [_ Hs].
  simpl in Hs. apply orb_false_elim in Hs as [Hx _]. exact Hx.
Qed.

Lemma has_char_suffix (c x : ascii) (a1 a2 s : string) :
  s = a1 +:+ String x a2 -> has_char c s = false -> has_char c a2 = false.
Proof.
  intros -> Hs. rewrite has_char_app in Hs. apply orb_false_elim in Hs as [_ Hs].
  simpl in Hs. apply orb_false_elim in Hs as [_ Hx]. exact Hx.
Qed.

Lemma enclosed_app (b : bracket) (body rest : string) :
  enclosed b body +:+ rest = String (opening b) (body +:+ String (closing b) rest).
Proof. unfold enclosed. rewrite append_cons, append_assoc'. reflexivity. Qed.

(** an alternative matches the enclosed text when [k] accepts what follows
    it and nothing earlier in the body closes the match *)
Lemma bracketed_at {A} (b : bracket) (body rest : string) (g : option string)
    (k : string -> option string -> option A) (x : A) :
  (forall a1 c a2 s3,
     body = a1 +:+ String c a2 ->
     strip_prefix (String (closing b) EmptyString) (String c a2 +:+ String (closing b) rest)
       = Some s3 ->
     k s3 (Some (consumed (enclosed b body +:+ rest) s3)) = None) ->
  k rest (Some (enclosed b body)) = Some x ->
  bracketed b (enclosed b body +:+ rest) g k = Some x.
Proof.
  intros Hinner Hk. unfold bracketed.
  rewrite enclosed_app at 1.
  replace (strip_prefix (String (opening b) EmptyString)
             (String (opening b) (body +:+ String (closing b) rest)))
    with (Some (body +:+ String (closing b) rest))
    by (simpl; rewrite Ascii.eqb_refl; destruct (body +:+ String (closing b) rest); reflexivity).
  rewrite star_lazy_first.
  - apply star_lazy_here.
    replace (strip_prefix (String (closing b) EmptyString) (String (closing b) rest))
      with (Some rest) by (simpl; rewrite Ascii.eqb_refl; destruct rest; reflexivity).
    rewrite consumed_app. exact Hk.
  - intros a1 c a2 Hbody.
    destruct (strip_prefix (String (closing b) EmptyString)
                (String c a2 +:+ String (closing b) rest)) as [s3|] eqn:Hs; [|reflexivity].
    apply (Hinner a1 c a2 s3 Hbody Hs).
Qed.

Lemma bracketed_other (b : bracket) {A} (c : ascii) (s : string) (g : option string)
    (k : string -> option string -> option A) :
  Ascii.eqb c (opening b) = false -> bracketed b (String c s) g k = None.
Proof.
  intros Hc. unfold bracketed. simpl. rewrite Ascii.eqb_sym, Hc. reflexivity.
Qed.

(** the group, at the start of an enclosed text *)
Lemma json_group_at {A} (b : bracket) (body rest : string) (g : option string)
    (k : string -> option string -> option A) (x : A) :
  (forall a1 c a2 s3,
     body = a1 +:+ String c a2 ->
     strip_prefix (String (closing b) EmptyString) (String c a2 +:+ String (closing b) rest)
       = Some s3 ->
     k s3 (Some (consumed (enclosed b body +:+ rest) s3)) = None) ->
  k rest (Some (enclosed b body)) = Some x ->
  re_match json_group (enclosed b body +:+ rest) g k = Some x.
Proof.
  intros Hinner Hk. rewrite json_group_eq.
  destruct b.
  - rewrite (bracketed_at Brace body rest g k x Hinner Hk). reflexivity.
  - rewrite enclosed_app at 1. rewrite (bracketed_other Brace) by reflexivity.
    simpl or_else.
    apply (bracketed_at Square body rest g k x Hinner Hk).
Qed.

(** the bare pattern finds an enclosed text after prose without opening
    brackets, when the body has no closing bracket of its kind *)
Lemma bare_search (b : bracket) (pre body post : string) :
  has_char "{"%char pre = false ->
  has_char "["%char pre = false ->
  has_char (closing b) body = false ->
  re_search bare_pattern (pre +:+ enclosed b body +:+ post) = Some (Some (enclosed b body)).
Proof.
  intros Hbrace Hsquare Hbody. unfold bare_pattern. rewrite re_search_skip.
  - apply re_search_here. apply json_group_at; [|reflexivity].
    intros a1 c a2 s3 Hsplit Hs. exfalso.
    rewrite append_cons in Hs. simpl in Hs.
    rewrite Ascii.eqb_sym, (has_char_split _ _ _ _ _ Hsplit Hbody) in Hs. discriminate Hs.
  - intros a1 c a2 Hsplit. rewrite append_cons, json_group_eq.
    rewrite (bracketed_other Brace) by exact (has_char_split _ _ _ _ _ Hsplit Hbrace).
    rewrite (bracketed_other Square) by exact (has_char_split _ _ _ _ _ Hsplit Hsquare).
    reflexivity.
Qed.

(** the fenced pattern finds nothing in a text without backticks *)
Lemma fenced_search_none (text : string) :
  has_char backtick text = false -> re_search fenced_pattern text = None.
Proof.
  induction text as [|c text IH]; intros Ht; [reflexivity|].
  simpl in Ht. apply orb_false_elim in Ht as [Hc Hrest].
  rewrite re_search_cons, fenced_pattern_eq.
  rewrite strip_prefix_head by (rewrite Ascii.eqb_sym; exact Hc).
  apply IH, Hrest.
Qed.

Lemma skip_spaces_all (ws rest : string) :
  all_space ws = true -> skip_spaces (ws +:+ rest) = skip_spaces rest.
Proof.
  intros Hws. induction ws as [|c ws IH]; [reflexivity|].
  simpl in Hws. apply andb_prop in Hws as [Hc Hws].
  rewrite append_cons, skip_spaces_cons, Hc. apply IH, Hws.
Qed.

(** no closing fence follows a text without backticks that is followed
    by a closing bracket *)
Lemma no_fence_ahead (a : string) (c : ascii) (rest : string) :
  has_char backtick a = false ->
  is_space c = false ->
  Ascii.eqb c backtick = false ->
  strip_prefix "```" (skip_spaces (a +:+ String c rest)) = None.
Proof.
  intros Ha Hc Hcb. induction a as [|x a IH].
  - rewrite append_nil_l, skip_spaces_cons, Hc.
    apply strip_prefix_head. rewrite Ascii.eqb_sym. exact Hcb.
  - simpl in Ha. apply orb_false_elim in Ha as [Hx Ha].
    rewrite append_cons, skip_spaces_cons. destruct (is_space x); [apply IH, Ha|].
    apply strip_prefix_head. rewrite Ascii.eqb_sym. exact Hx.
Qed.

Lemma closing_facts (b : bracket) :
  is_space (closing b) = false /\ Ascii.eqb (closing b) backtick = false /\
  is_space (opening b) = false.
Proof. destruct b; repeat split; reflexivity. Qed.

(** the fenced pattern finds an enclosed text without backticks in its
    code block, after prose without backticks *)
Lemma fenced_search (b : bracket) (pre ws1 body ws2 post : string) :
  has_char backtick pre = false ->
  has_char backtick body = false ->
  all_space ws1 = true ->
  all_space ws2 = true ->
  re_search fenced_pattern (fenced pre ws1 (enclosed b body) ws2 post)
    = Some (Some (enclosed b body)).
Proof.
  intros Hpre Hbody Hws1 Hws2. unfold fenced.
  destruct (closing_facts b) as [Hcs [Hcb Hos]].
  rewrite re_search_skip.
  - apply re_search_here. rewrite fenced_pattern_eq.
    change ("```json" +:+ ws1 +:+ enclosed b body +:+ ws2 +:+ "```" +:+ post)
      with ("```" +:+ "json" +:+ ws1 +:+ enclosed b body +:+ ws2 +:+ "```" +:+ post).
    rewrite strip_prefix_app, strip_prefix_app.
    assert (Htail : fence_tail (ws1 +:+ enclosed b body +:+ ws2 +:+ "```" +:+ post) None
                      (fun _ g => Some g) = Some (Some (enclosed b body))).
    { unfold fence_tail. apply star_greedy_spaces; [exact Hws1| |].
      - rewrite enclosed_app, skip_spaces_cons, Hos. reflexivity.
      - apply json_group_at.
        + intros a1 c a2 s3 Hsplit Hs. rewrite star_greedy_fence.
          rewrite append_cons in Hs. simpl in Hs.
          destruct (Ascii.eqb (closing b) c); [|discriminate Hs].
          assert (Hs3 : s3 = a2 +:+ String (closing b) (ws2 +:+ "```" +:+ post)).
          { destruct (a2 +:+ String (closing b) (ws2 +:+ "```" +:+ post));
              injection Hs as <-; reflexivity. }
          rewrite Hs3, no_fence_ahead; [reflexivity| |exact Hcs|exact Hcb].
          exact (has_char_suffix _ _ _ _ _ Hsplit Hbody).
        + rewrite star_greedy_fence, skip_spaces_all by exact Hws2.
          change (skip_spaces ("```" +:+ post)) with ("```" +:+ post).
          rewrite strip_prefix_app. reflexivity. }
    rewrite Htail. reflexivity.
  - intros a1 c a2 Hsplit. rewrite append_cons, fenced_pattern_eq.
    rewrite strip_prefix_head; [reflexivity|].
    rewrite Ascii.eqb_sym. exact (has_char_split _ _ _ _ _ Hsplit Hpre).
Qed.

(** neither pattern can match where no opening brace or bracket follows *)
Lemma no_opening_cons (c : ascii) (t : string) :
  no_opening (String c t) = true ->
  Ascii.eqb c "{"%char = false /\ Ascii.eqb c "["%char = false /\ no_opening t = true.
Proof.
  unfold no_opening. simpl. intros Hn. apply andb_prop in Hn as [Hb Hs].
  apply negb_true_iff, orb_false_elim in Hb as [Hb1 Hb2].
  apply negb_true_iff, orb_false_elim in Hs as [Hs1 Hs2].
  rewrite Hb2, Hs2. repeat split; assumption.
Qed.

Lemma no_opening_strip (p s s1 : string) :
  strip_prefix p s = Some s1 -> no_opening s = true -> no_opening s1 = true.
Proof.
  revert s. induction p as [|a p IH]; intros s; simpl.
  - intros [= <-] Hs. exact Hs.
  - destruct s as [|c s]; [discriminate|].
    destruct (Ascii.eqb a c); [|discriminate].
    intros Hp Hs. apply (IH s Hp). apply (no_opening_cons c s Hs).
Qed.

Lemma json_group_none {A} (s : string) (g : option string)
    (k : string -> option string -> option A) :
  no_opening s = true -> re_match json_group s g k = None.
Proof.
  intros Hs. rewrite json_group_eq. destruct s as [|c s]; [reflexivity|].
  destruct (no_opening_cons c s Hs) as [Hb [Hq _]].
  rewrite (bracketed_other Brace) by exact Hb.
  rewrite (bracketed_other Square) by exact Hq. reflexivity.
Qed.

Lemma fence_tail_none {A} (t : string) (g : option string)
    (k : string -> option string -> option A) :
  no_opening t = true -> fence_tail t g k = None.
Proof.
  unfold fence_tail. induction t as [|c t IH]; intros Ht.
  - reflexivity.
  - rewrite star_greedy_cons, (json_group_none _ _ _ Ht).
    rewrite IH by apply (no_opening_cons c t Ht).
    destruct (is_space c); reflexivity.
Qed.

Lemma re_search_no_opening (r : regex) :
  (forall s, no_opening s = true -> re_match r s None (fun _ g => Some g) = None) ->
  forall text, no_opening text = true -> re_search r text = None.
Proof.
  intros Hr text. induction text as [|c text IH]; intros Ht.
  - simpl. rewrite (Hr _ Ht). reflexivity.
  - rewrite re_search_cons, (Hr _ Ht). apply IH, (no_opening_cons c text Ht).
Qed.

Lemma bare_search_none (text : string) :
  no_opening text = true -> re_search bare_pattern text = None.
Proof.
  apply re_search_no_opening. intros s Hs. apply json_group_none, Hs.
Qed.

Lemma fenced_search_no_opening (text : string) :
  no_opening text = true -> re_search fenced_pattern text = None.
Proof.
  apply re_search_no_opening. intros s Hs. rewrite fenced_pattern_eq.
  destruct (strip_prefix "```" s) as [s1|] eqn:E1; [|reflexivity].
  pose proof (no_opening_strip _ _ _ E1 Hs) as Hs1.
  rewrite (fence_tail_none s1 _ _ Hs1).
  destruct (strip_prefix "json" s1) as [s2|] eqn:E2; [|reflexivity].
  rewrite (fence_tail_none s2 _ _ (no_opening_strip _ _ _ E2 Hs1)). reflexivity.
Qed.

(** ** The stages *)

Lemma nodes_entered_app (a b : list event) :
  nodes_entered (a ++ b) = (nodes_entered a ++ nodes_entered b)%list.
Proof. induction a as [|[] a IH]; simpl; congruence. Qed.

Lemma assignments_app (a b : list event) :
  assignments (a ++ b) = (assignments a ++ assignments b)%list.
Proof. induction a as [|[] a IH]; simpl; congruence. Qed.

Lemma service_calls_app (a b : list event) :
  service_calls (a ++ b) = (service_calls a ++ service_calls b)%list.
Proof. induction a as [|[] a IH]; simpl; congruence. Qed.

Lemma occurrences_app (k : string) (a b : list string) :
  occurrences k (a ++ b) = occurrences k a + occurrences k b.
Proof. induction a as [|x a IH]; simpl; [reflexivity|]. rewrite IH. lia. Qed.

Section StageFacts.
Context `{Services}.

(** *** The price-check stage *)

Lemma price_check_node_eq (state : ClaimState) (v : pyval) (s : cstate) :
  state !! "claim_amount" = Some v ->
  price_check_node state s =
    match py_gt_int (py_or v (PInt 0)) 10000 with
    | Ok high =>
        (Ok (price_checked_state state high),
         CState (world s)
           (events s ++ [Assign "price_check_result"; Assign "current_step"])%list)
    | Raise e => (Raise e, s)
    end.
Proof.
  intros Hv. unfold price_check_node, getitem, bind. rewrite Hv. simpl.
  destruct (py_gt_int (py_or v (PInt 0)) 10000) as [[|]|e]; simpl; try reflexivity.
  all: rewrite <- app_assoc; reflexivity.
Qed.

Lemma number_gt (n : number) :
  exists high, py_gt_int (py_or (number_value n) (PInt 0)) 10000 = Ok high /\
               (high = true <-> exceeds n 10000).
Proof.
  destruct n as [z|[q|negative|]]; unfold py_or; simpl.
  - destruct (z =? 0)%Z eqn:Hz; simpl.
    + apply Z.eqb_eq in Hz. subst z. exists false. split; [reflexivity|]. split; [discriminate|lia].
    + exists (z >? 10000)%Z. split; [reflexivity|]. rewrite Z.gtb_ltb, Z.ltb_lt. reflexivity.
  - destruct (Qeq_bool q 0) eqn:Hq; simpl.
    + apply Qeq_bool_eq in Hq. exists false. split; [reflexivity|].
      split; [discriminate|]. intros Hlt. rewrite Hq in Hlt. discriminate Hlt.
    + destruct (Qlt_le_dec (inject_Z 10000) q) as [Hlt|Hle].
      * exists true. split; [reflexivity|]. tauto.
      * exists false. split; [reflexivity|]. split; [discriminate|].
        intros Hlt. exfalso. apply (Qlt_not_le _ _ Hlt Hle).
  - exists (negb negative). split; [reflexivity|]. destruct negative; simpl; split; congruence.
  - exists false. split; [reflexivity|]. split; [discriminate|tauto].
Qed.

(** C3: the price-check stage computes its result from the claim amount
    alone, without calling a service: for a numeric amount the result is
    HIGH_AMOUNT_FLAGGED exactly when the amount exceeds 10000 and
    WITHIN_NORMAL_RANGE exactly when it does not, the state of the
    services is untouched, and the amount 10000 itself is within the
    normal range. *)
Theorem price_check_threshold :
  (forall (state : ClaimState) (n : number) (s : cstate),
     exists state' : ClaimState,
       price_check_node (<["claim_amount" := number_value n]> state) s =
         (Ok state',
          CState (world s)
            (events s ++ [Assign "price_check_result"; Assign "current_step"])%list) /\
       (state' !! "price_check_result" = Some (PStr "HIGH_AMOUNT_FLAGGED")
          <-> exceeds n 10000) /\
       (state' !! "price_check_result" = Some (PStr "WITHIN_NORMAL_RANGE")
          <-> ~ exceeds n 10000)) /\
  (forall (state : ClaimState) (s : cstate),
     exists state' : ClaimState,
       fst (price_check_node (<["claim_amount" := PInt 10000]> state) s) = Ok state' /\
       state' !! "price_check_result" = Some (PStr "WITHIN_NORMAL_RANGE")).
Proof.
  split.
  - intros state n s. destruct (number_gt n) as [high [Hgt Hiff]].
    eexists. split.
    + rewrite (price_check_node_eq _ (number_value n)) by apply lookup_insert_eq.
      rewrite Hgt. reflexivity.
    + unfold price_checked_state. rewrite lookup_insert_ne by discriminate.
      rewrite lookup_insert_eq. rewrite <- Hiff.
      destruct high; split; split; congruence.
  - intros state s. eexists. split.
    + rewrite (price_check_node_eq _ (PInt 10000)) by apply lookup_insert_eq.
      reflexivity.
    + unfold price_checked_state. simplify_map_eq. reflexivity.
Qed.

(** C9: a claim amount that is None at the price-check stage is replaced
    by 0: the stage returns, with WITHIN_NORMAL_RANGE; so it does on the
    state the parse node leaves when the parsed claim has no amount. *)
Theorem price_check_missing_amount (state : ClaimState) (s : cstate) :
  py_or PNone (PInt 0) = PInt 0 /\
  (exists state',
     price_check_node (<["claim_amount" := PNone]> state) s =
       (Ok state',
        CState (world s)
          (events s ++ [Assign "price_check_result"; Assign "current_step"])%list) /\
     state' !! "price_check_result" = Some (PStr "WITHIN_NORMAL_RANGE")) /\
  (forall d : list (string * pyval),
     dict_lookup d "claim_amount" = None ->
     exists state',
       fst (price_check_node (parsed_state state d) s) = Ok state' /\
       state' !! "price_check_result" = Some (PStr "WITHIN_NORMAL_RANGE")).
Proof.
  split; [reflexivity|]. split.
  - eexists. split.
    + rewrite (price_check_node_eq _ PNone) by apply lookup_insert_eq. reflexivity.
    + unfold price_checked_state. simplify_map_eq. reflexivity.
  - intros d Hd. eexists. split.
    + rewrite (price_check_node_eq _ PNone).
      * reflexivity.
      * unfold parsed_state, field. rewrite Hd. simplify_map_eq. reflexivity.
    + unfold price_checked_state. simplify_map_eq. reflexivity.
Qed.

(** called on a dict in which the key is not bound, which no run does
    (the parse node binds it), the node raises KeyError *)
Remark price_check_unbound_key (state : ClaimState) (s : cstate) :
  state !! "claim_amount" = None ->
  price_check_node state s = (Raise (Exn KeyError "'claim_amount'"), s).
Proof.
  intros Hk. unfold price_check_node, getitem, bind. rewrite Hk. reflexivity.
Qed.

End StageFacts.

Section RetrievalFacts.
Context `{Services}.

Lemma retrieve_str (q : string) (k : Z) (s : cstate) :
  retrieve (PStr q) k s =
    match collection_query (PStr q) k (world s) with
    | (Ok documents, w) =>
        (Ok (hits_text documents), CState w (events s ++ [CallQuery (PStr q) k])%list)
    | (Raise e, w) => (Raise e, CState w (events s ++ [CallQuery (PStr q) k])%list)
    end.
Proof.
  unfold retrieve, bind, lift, query_collection. simpl.
  destruct (collection_query (PStr q) k (world s)) as [[documents|e] w]; [|reflexivity].
  destruct documents as [[|[|c chunks] rest]|]; reflexivity.
Qed.

Lemma keep_nonempty (acc : list string) (t : string) :
  (if String.eqb t EmptyString then acc else (acc ++ [t])%list) =
  (acc ++ List.filter nonempty [t])%list.
Proof.
  unfold nonempty. simpl. destruct (String.eqb t EmptyString); simpl.
  - apply eq_sym, app_nil_r.
  - reflexivity.
Qed.

(** the loop over string queries, against [fetch_all] *)
Lemma retrieve_loop_fetch (queries : list string) (acc : list string) (s : cstate) :
  retrieve_loop (map PStr queries) acc s =
    match fetch_all queries (world s) with
    | (Ok texts, w, sent) =>
        (Ok (acc ++ List.filter nonempty texts)%list, CState w (events s ++ top3 sent)%list)
    | (Raise e, w, sent) => (Raise e, CState w (events s ++ top3 sent)%list)
    end.
Proof.
  revert acc s. induction queries as [|q queries IH]; intros acc s.
  - simpl. unfold ret. rewrite !app_nil_r. destruct s; reflexivity.
  - simpl. unfold bind at 1. unfold lift at 1. simpl.
    unfold bind at 1. rewrite retrieve_str.
    destruct (collection_query (PStr q) 3 (world s)) as [[documents|e] w1]; simpl.
    + rewrite IH. simpl.
      destruct (fetch_all queries w1) as [[[texts|e] w2] sent]; simpl.
      * rewrite keep_nonempty. rewrite <- !app_assoc. simpl.
        destruct (nonempty (hits_text documents)); reflexivity.
      * rewrite <- !app_assoc. reflexivity.
    + reflexivity.
Qed.

Lemma fetch_all_sent (queries : list string) (w : World) :
  forall texts w' sent,
    fetch_all queries w = (Ok texts, w', sent) ->
    sent = queries /\ length texts = length queries.
Proof.
  revert w. induction queries as [|q queries IH]; intros w texts w' sent; simpl.
  - intros [= <- <- <-]. split; reflexivity.
  - destruct (collection_query (PStr q) 3 w) as [[documents|e] w1]; [|discriminate].
    destruct (fetch_all queries w1) as [[[texts1|e] w2] sent1] eqn:E; [|discriminate].
    intros [= <- <- <-]. destruct (IH _ _ _ _ E) as [-> Hl]. simpl. split; congruence.
Qed.

Lemma fetch_all_raise (before after : list string) (q : string) (w w1 w2 : World)
    (texts sent : list string) (e : exn) :
  fetch_all before w = (Ok texts, w1, sent) ->
  collection_query (PStr q) 3 w1 = (Raise e, w2) ->
  fetch_all (before ++ q :: after) w = (Raise e, w2, (before ++ [q])%list).
Proof.
  revert w texts sent. induction before as [|b before IH]; intros w texts sent; simpl.
  - intros [= <- <- <-] Hq. rewrite Hq. reflexivity.
  - destruct (collection_query (PStr b) 3 w) as [[documents|e0] w0]; [|discriminate].
    destruct (fetch_all before w0) as [[[texts1|e1] w3] sent1] eqn:E; [|discriminate].
    intros [= <- <- <-] Hq. rewrite (IH _ _ _ E Hq). reflexivity.
Qed.

(** what the retrieval tool returns on a list of string queries *)
Lemma retrieve_policy_text_fetch (queries : list string) (s : cstate) :
  retrieve_policy_text (PList (map PStr queries)) s =
    match fetch_all queries (world s) with
    | (Ok texts, w, sent) =>
        (Ok (PStr (str_join delimiter (List.filter nonempty texts))),
         CState w (events s ++ top3 sent)%list)
    | (Raise e, w, sent) => (Ok (PStr EmptyString), CState w (events s ++ top3 sent)%list)
    end.
Proof.
  unfold retrieve_policy_text, try_except, bind, lift. simpl.
  rewrite retrieve_loop_fetch.
  destruct (fetch_all queries (world s)) as [[[texts|e] w] sent]; reflexivity.
Qed.

(** C10: when the collection raises on a query, the retrieval stage
    returns the empty string: the texts already fetched for the queries
    before it are dropped and the queries after it are never sent. *)
Theorem retrieval_all_or_nothing (before after : list string) (q : string)
    (s : cstate) (w1 w2 : World) (texts sent : list string) (e : exn) :
  fetch_all before (world s) = (Ok texts, w1, sent) ->
  collection_query (PStr q) 3 w1 = (Raise e, w2) ->
  retrieve_policy_text (PList (map PStr (before ++ q :: after))) s =
    (Ok (PStr EmptyString), CState w2 (events s ++ top3 (before ++ [q]))%list).
Proof.
  intros Hbefore Hq. rewrite retrieve_policy_text_fetch.
  rewrite (fetch_all_raise _ _ _ _ _ _ _ _ _ Hbefore Hq). reflexivity.
Qed.

End RetrievalFacts.

Section NodeFacts.
Context `{Services}.

(** the wrapper calls the function when every argument conforms *)
Lemma tool_invoke_ok {A} (name : string) (input : list (hint * pyval)) (func : M A) :
  forallb (fun a => conforms (fst a) (snd a)) input = true ->
  tool_invoke name input func = func.
Proof. intros Hok. unfold tool_invoke. rewrite Hok. reflexivity. Qed.

(** and raises without calling it when one does not *)
Lemma tool_invoke_refused {A} (name : string) (input : list (hint * pyval)) (func : M A) :
  forallb (fun a => conforms (fst a) (snd a)) input = false ->
  tool_invoke name input func = raise (validation_error name).
Proof. intros Hno. unfold tool_invoke. rewrite Hno. reflexivity. Qed.

Lemma conforms_strings (l : list string) : conforms HListStr (PList (map PStr l)) = true.
Proof. simpl. induction l as [|x l IH]; [reflexivity|exact IH]. Qed.

Lemma parse_claim_node_ok (state : ClaimState) (s : cstate) (claim_json : string) :
  state !! "claim_json" = Some (PStr claim_json) ->
  exists d w',
    parse_claim_node state s =
      (Ok (parsed_state state d),
       CState w' (events s ++
         CallLLM (parse_prompt claim_json) ::
         map Assign ["claim_id"; "policy_holder"; "vendor_name"; "invoice_items";
                     "claim_amount"; "current_step"])%list).
Proof.
  intros Hcj. unfold parse_claim_node, getitem, bind at 1. rewrite Hcj.
  unfold ret at 1. rewrite tool_invoke_ok by reflexivity. unfold bind at 1.
  unfold parse_claim, try_except, bind, llm, lift. simpl.
  fold (parse_prompt claim_json).
  destruct (llm_invoke _ (world s)) as [[response|e] w'].
  - destruct (extract_json response) as [v|e].
    + destruct v; simpl.
      7: { exists d, w'. rewrite <- !app_assoc. reflexivity. }
      all: exists [], w'; rewrite <- !app_assoc; reflexivity.
    + simpl. exists [], w'. rewrite <- !app_assoc. reflexivity.
  - simpl. exists [], w'. rewrite <- !app_assoc. reflexivity.
Qed.

End NodeFacts.

Section NodeFacts2.
Context `{Services}.

Lemma validate_claim_node_eq (state : ClaimState) (s : cstate)
    (claim_id policy_holder vendor_name claim_amount : pyval) :
  state !! "claim_id" = Some claim_id ->
  state !! "policy_holder" = Some policy_holder ->
  state !! "vendor_name" = Some vendor_name ->
  state !! "claim_amount" = Some claim_amount ->
  let p := validate_prompt claim_id policy_holder vendor_name claim_amount in
  let a := validation_answer (fst (llm_invoke p (world s))) in
  validate_claim_node state s =
    (Ok (validated_state state (fst a) (snd a)),
     CState (snd (llm_invoke p (world s)))
       (events s ++ CallLLM p ::
          map Assign ["is_valid"; "validation_reason"; "current_step"])%list).
Proof.
  intros H1 H2 H3 H4 p a. subst a.
  unfold validate_claim_node, getitem, bind at 1. rewrite H1.
  unfold ret at 1, bind at 1. rewrite H2. unfold ret at 1, bind at 1. rewrite H3.
  unfold ret at 1, bind at 1. rewrite H4. unfold ret at 1.
  rewrite tool_invoke_ok by reflexivity. unfold bind at 1.
  unfold is_valid_query, try_except, bind, llm, lift. simpl.
  fold (validate_prompt claim_id policy_holder vendor_name claim_amount). fold p.
  destruct (llm_invoke p (world s)) as [[response|e] w']; simpl.
  - destruct (extract_json response) as [v|e]; simpl.
    + destruct v; simpl; rewrite <- !app_assoc; reflexivity.
    + rewrite <- !app_assoc. reflexivity.
  - rewrite <- !app_assoc. reflexivity.
Qed.

Lemma invalid_claim_node_eq (state : ClaimState) (s : cstate) (reason : pyval) :
  state !! "validation_reason" = Some reason ->
  invalid_claim_node state s =
    (Ok (rejected_state state reason),
     CState (world s)
       (events s ++ map Assign ["final_decision"; "final_reasoning"; "current_step"])%list).
Proof.
  intros Hr. unfold invalid_claim_node, setitem, getitem, bind, emit, ret. simpl.
  rewrite lookup_insert_ne by discriminate. rewrite Hr. simpl.
  rewrite <- !app_assoc. reflexivity.
Qed.

Lemma should_continue_eq (state : ClaimState) (s : cstate) (v : pyval) :
  state !! "is_valid" = Some v ->
  should_continue_after_validation state s =
    (Ok (if py_truthy v then "continue" else "invalid"), s).
Proof.
  intros Hv. unfold should_continue_after_validation, getitem, bind. rewrite Hv.
  unfold ret. destruct (py_truthy v); reflexivity.
Qed.

Lemma generate_queries_node_eq (state : ClaimState) (s : cstate)
    (vendor_name invoice_items claim_amount : pyval) :
  state !! "vendor_name" = Some vendor_name ->
  state !! "invoice_items" = Some invoice_items ->
  state !! "claim_amount" = Some claim_amount ->
  let p := queries_prompt vendor_name invoice_items claim_amount in
  generate_queries_node state s =
    (Ok (<["current_step" := PStr "queries_generated"]>
           (<["policy_queries" := queries_answer (fst (llm_invoke p (world s)))]> state)),
     CState (snd (llm_invoke p (world s)))
       (events s ++ CallLLM p :: map Assign ["policy_queries"; "current_step"])%list).
Proof.
  intros H1 H2 H3 p.
  unfold generate_queries_node, getitem, bind at 1. rewrite H1.
  unfold ret at 1, bind at 1. rewrite H2. unfold ret at 1, bind at 1. rewrite H3.
  unfold ret at 1. rewrite tool_invoke_ok by reflexivity. unfold bind at 1.
  unfold generate_policy_queries, try_except, bind, llm, lift. simpl.
  fold (queries_prompt vendor_name invoice_items claim_amount). fold p.
  destruct (llm_invoke p (world s)) as [[response|e] w']; simpl.
  - destruct (extract_json response) as [v|e]; simpl.
    + destruct v as [| | | | | |d]; simpl; try (rewrite <- !app_assoc; reflexivity).
      destruct (dict_lookup d "queries") as [[]|]; simpl; rewrite <- !app_assoc; reflexivity.
    + rewrite <- !app_assoc. reflexivity.
  - rewrite <- !app_assoc. reflexivity.
Qed.

End NodeFacts2.

Section NodeFacts3.
Context `{Services}.

Lemma collection_only_facts (calls : list event) :
  collection_only calls -> nodes_entered calls = [] /\ assignments calls = [].
Proof.
  induction 1 as [|ev calls Hev _ IH]; [split; reflexivity|].
  destruct ev; try discriminate Hev. simpl. exact IH.
Qed.

Lemma retrieve_calls (query : pyval) (k : Z) (s : cstate) :
  exists evs,
    events (snd (retrieve query k s)) = (events s ++ evs)%list /\ collection_only evs.
Proof.
  unfold retrieve, bind, lift, query_collection.
  destruct (py_slice_to 100 query) as [v|e]; simpl.
  - destruct (collection_query query k (world s)) as [[documents|e] w]; simpl.
    + exists [CallQuery query k].
      destruct documents as [[|[|c chunks] rest]|]; simpl; split; try reflexivity;
        repeat constructor.
    + exists [CallQuery query k]. split; [reflexivity|repeat constructor].
  - exists []. rewrite app_nil_r. split; [reflexivity|constructor].
Qed.

Lemma retrieve_loop_calls (queries : list pyval) (acc : list string) (s : cstate) :
  exists evs,
    events (snd (retrieve_loop queries acc s)) = (events s ++ evs)%list /\
    collection_only evs.
Proof.
  revert acc s. induction queries as [|q queries IH]; intros acc s; simpl.
  - exists []. rewrite app_nil_r. split; [reflexivity|constructor].
  - unfold bind at 1, lift at 1.
    destruct (py_slice_to 60 q) as [v|e]; simpl.
    + unfold bind at 1.
      destruct (retrieve_calls q 3 s) as [evs1 [He1 Hc1]].
      destruct (retrieve q 3 s) as [[text|e] s1]; simpl in *.
      * destruct (IH (if String.eqb text EmptyString then acc else (acc ++ [text])%list) s1)
          as [evs2 [He2 Hc2]].
        exists (evs1 ++ evs2)%list. rewrite He2, He1, app_assoc.
        split; [reflexivity|apply Forall_app; split; assumption].
      * exists evs1. split; assumption.
    + exists []. rewrite app_nil_r. split; [reflexivity|constructor].
Qed.

(** the retrieval tool always returns, with a string, after calls of the
    collection only *)
Lemma retrieve_policy_text_ok (queries : pyval) (s : cstate) :
  exists text w' calls,
    retrieve_policy_text queries s = (Ok (PStr text), CState w' (events s ++ calls)%list) /\
    collection_only calls.
Proof.
  unfold retrieve_policy_text, try_except, bind, lift.
  destruct (py_iter queries) as [items|e]; simpl.
  - destruct (retrieve_loop_calls items [] s) as [evs [He Hc]].
    destruct (retrieve_loop items [] s) as [[texts|e] [w' evs']]; simpl in *; subst evs';
      eexists _, w', evs; split; try reflexivity; assumption.
  - exists EmptyString, (world s), []. rewrite app_nil_r. destruct s.
    split; [reflexivity|constructor].
Qed.

(** the retrieval node on a list of strings *)
Lemma retrieve_policy_node_eq (state : ClaimState) (s : cstate) (queries : pyval) :
  state !! "policy_queries" = Some queries ->
  conforms HListStr queries = true ->
  exists text w' calls,
    retrieve_policy_node state s =
      (Ok (<["current_step" := PStr "policy_retrieved"]>
             (<["retrieved_policy_text" := PStr text]> state)),
       CState w' (events s ++ calls ++
                  map Assign ["retrieved_policy_text"; "current_step"])%list) /\
    collection_only calls /\
    retrieve_policy_text queries s = (Ok (PStr text), CState w' (events s ++ calls)%list).
Proof.
  intros Hq Hok. unfold retrieve_policy_node, getitem, bind at 1. rewrite Hq.
  unfold ret at 1.
  rewrite tool_invoke_ok by (cbn [forallb fst snd]; rewrite Hok; reflexivity).
  unfold bind at 1.
  destruct (retrieve_policy_text_ok queries s) as [text [w' [calls [Heq Hc]]]].
  rewrite Heq. exists text, w', calls. split; [|split; [assumption|reflexivity]].
  unfold setitem, bind, emit, ret. simpl. rewrite <- !app_assoc. reflexivity.
Qed.

(** the retrieval node on any other value: the wrapper raises, and neither
    the collection nor the state is touched *)
Lemma retrieve_policy_node_refused (state : ClaimState) (s : cstate) (queries : pyval) :
  state !! "policy_queries" = Some queries ->
  conforms HListStr queries = false ->
  retrieve_policy_node state s = (Raise (validation_error "retrieve_policy_text"), s).
Proof.
  intros Hq Hno. unfold retrieve_policy_node, getitem, bind at 1. rewrite Hq.
  unfold ret at 1.
  rewrite tool_invoke_refused by (cbn [forallb fst snd]; rewrite Hno; reflexivity).
  reflexivity.
Qed.

Opaque str_take.

Lemma recommendation_node_eq (state : ClaimState) (s : cstate)
    (claim_id vendor_name claim_amount invoice_items : pyval) (policy_text : string) :
  state !! "claim_id" = Some claim_id ->
  state !! "vendor_name" = Some vendor_name ->
  state !! "claim_amount" = Some claim_amount ->
  state !! "invoice_items" = Some invoice_items ->
  state !! "retrieved_policy_text" = Some (PStr policy_text) ->
  let p := recommendation_prompt claim_id vendor_name claim_amount invoice_items
             (str_take 2000 policy_text) in
  let a := recommendation_answer (fst (llm_invoke p (world s))) in
  recommendation_node state s =
    (Ok (<["current_step" := PStr "recommendation_generated"]>
           (<["recommendation_reasoning" := snd a]>
              (<["recommendation" := fst a]> state))),
     CState (snd (llm_invoke p (world s)))
       (events s ++ CallLLM p ::
          map Assign ["recommendation"; "recommendation_reasoning"; "current_step"])%list).
Proof.
  intros H1 H2 H3 H4 H5 p a. subst a.
  unfold recommendation_node, getitem, bind at 1. rewrite H1.
  unfold ret at 1, bind at 1. rewrite H2. unfold ret at 1, bind at 1. rewrite H3.
  unfold ret at 1, bind at 1. rewrite H4. unfold ret at 1, bind at 1. rewrite H5.
  unfold ret at 1. rewrite tool_invoke_ok by reflexivity. unfold bind at 1.
  unfold generate_recommendation, try_except, bind, llm, lift. simpl.
  fold (recommendation_prompt claim_id vendor_name claim_amount invoice_items
          (str_take 2000 policy_text)). fold p.
  destruct (llm_invoke p (world s)) as [[response|e] w']; simpl.
  - destruct (extract_json response) as [v|e]; simpl.
    + destruct v; simpl; rewrite <- !app_assoc; reflexivity.
    + rewrite <- !app_assoc. reflexivity.
  - rewrite <- !app_assoc. reflexivity.
Qed.

Transparent str_take.

(** the finalize node: the wrapper refuses a recommendation, a reasoning
    or a price-check result that is not a string *)
Lemma finalize_decision_node_eq (state : ClaimState) (s : cstate)
    (claim_id recommendation reasoning price_check_result : pyval) :
  state !! "claim_id" = Some claim_id ->
  state !! "recommendation" = Some recommendation ->
  state !! "recommendation_reasoning" = Some reasoning ->
  state !! "price_check_result" = Some price_check_result ->
  let p := finalize_prompt claim_id recommendation reasoning price_check_result in
  let a := finalize_answer (fst (llm_invoke p (world s))) in
  finalize_decision_node state s =
    if is_str recommendation && is_str reasoning && is_str price_check_result
    then (Ok (finalized_state state (fst a) (snd a)),
          CState (snd (llm_invoke p (world s))) (events s ++ events_of_finalize p)%list)
    else (Raise (validation_error "finalize_decision"), s).
Proof.
  intros H1 H2 H3 H4 p a. subst a.
  unfold finalize_decision_node, getitem, bind at 1. rewrite H1.
  unfold ret at 1, bind at 1. rewrite H2. unfold ret at 1, bind at 1. rewrite H3.
  unfold ret at 1, bind at 1. rewrite H4. unfold ret at 1.
  unfold tool_invoke. cbn [forallb conforms fst snd is_dict andb].
  destruct (is_str recommendation), (is_str reasoning), (is_str price_check_result);
    cbn [andb]; try reflexivity.
  unfold bind at 1.
  unfold finalize_decision, try_except, bind, llm, lift. simpl.
  fold (finalize_prompt claim_id recommendation reasoning price_check_result). fold p.
  unfold events_of_finalize.
  destruct (llm_invoke p (world s)) as [[response|e] w']; simpl.
  - destruct (extract_json response) as [v|e]; simpl.
    + destruct v; simpl; rewrite <- !app_assoc; reflexivity.
    + rewrite <- !app_assoc. reflexivity.
  - rewrite <- !app_assoc. reflexivity.
Qed.

End NodeFacts3.

(** the plain edge from [src] leads to [dst] *)
Ltac follow_edge src dst :=
  match goal with
  | |- context [successor claims_graph src ?st] =>
      change (successor claims_graph src st) with (@ret _ string dst)
  end;
  unfold ret at 1;
  first [ change (String.eqb dst END) with false
        | change (String.eqb dst END) with true ];
  cbv iota.

Section RunFacts.
Context `{Services}.

Lemma run_unfold (g : StateGraph) (n : nat) (name : string)
    (action : ClaimState -> M ClaimState) (state : ClaimState) (s : cstate) :
  assoc name (nodes g) = Some action ->
  run g (S n) name state s =
    match action state (entering name s) with
    | (Ok state', s') =>
        match successor g name state' s' with
        | (Ok next, s'') =>
            if String.eqb next END then (Ok state', s'') else run g n next state' s''
        | (Raise e, s'') => (Raise e, s'')
        end
    | (Raise e, s') => (Raise e, s')
    end.
Proof.
  intros Ha. simpl. rewrite Ha. unfold bind, emit, entering. simpl.
  destruct (action state _) as [[state'|e] s']; [|reflexivity].
  destruct (successor g name state' s') as [[next|e] s'']; [|reflexivity].
  destruct (String.eqb next END); reflexivity.
Qed.

Lemma try_except_reraise {A} (m : M A) (s : cstate) :
  try_except m (fun e => raise e) s = m s.
Proof. unfold try_except, raise. destruct (m s) as [[a|e] s']; reflexivity. Qed.

Lemma retrieve_policy_text_nil (s : cstate) :
  retrieve_policy_text (PList []) s = (Ok (PStr EmptyString), s).
Proof. reflexivity. Qed.

Lemma py_gt_int_raises (v : pyval) (n : Z) (e : exn) :
  py_gt_int v n = Raise e -> exn_cls e = TypeError.
Proof.
  destruct v as [| | |[]| | |]; simpl; intros [= <-]; reflexivity.
Qed.

(** the accept branch from the query-generation node on, in full: the
    wrapper of the retrieval tool stops it when the stored queries are
    not a list of strings, the comparison of the price-check node when
    the amount is not a number, and the wrapper of the finalize tool when
    the recommendation or its reasoning is not a string *)
Lemma accept_branch_exact (n : nat) (state : ClaimState) (s : cstate)
    (claim_id vendor_name invoice_items claim_amount : pyval) :
  state !! "claim_id" = Some claim_id ->
  state !! "vendor_name" = Some vendor_name ->
  state !! "invoice_items" = Some invoice_items ->
  state !! "claim_amount" = Some claim_amount ->
  let pq := queries_prompt vendor_name invoice_items claim_amount in
  let queries := queries_answer (fst (llm_invoke pq (world s))) in
  let sr := CState (snd (llm_invoke pq (world s)))
              (events s ++ events_to_retrieval pq)%list in
  if conforms HListStr queries then
    exists (text : string) (calls : list event) (wr : World),
      let pr := recommendation_prompt claim_id vendor_name claim_amount invoice_items
                  (str_take 2000 text) in
      let ar := recommendation_answer (fst (llm_invoke pr wr)) in
      let st3 := recommended_state state queries text (fst ar) (snd ar) in
      let w3 := snd (llm_invoke pr wr) in
      let evs3 := (events s ++ events_to_price_check pq pr calls)%list in
      collection_only calls /\
      retrieve_policy_text queries sr =
        (Ok (PStr text), CState wr (events sr ++ calls)%list) /\
      run claims_graph (5 + n) "generate_queries" state s =
        match py_gt_int (py_or claim_amount (PInt 0)) 10000 with
        | Ok high =>
            let pf := finalize_prompt claim_id (fst ar) (snd ar)
                        (PStr (if high then "HIGH_AMOUNT_FLAGGED"
                               else "WITHIN_NORMAL_RANGE")) in
            let af := finalize_answer (fst (llm_invoke pf w3)) in
            if is_str (fst ar) && is_str (snd ar)
            then (Ok (finalized_state (price_checked_state st3 high) (fst af) (snd af)),
                  CState (snd (llm_invoke pf w3))
                    (evs3 ++ events_to_finalize ++ events_of_finalize pf)%list)
            else (Raise (validation_error "finalize_decision"),
                  CState w3 (evs3 ++ events_to_finalize)%list)
        | Raise e => (Raise e, CState w3 evs3)
        end
  else
    run claims_graph (5 + n) "generate_queries" state s =
      (Raise (validation_error "retrieve_policy_text"), sr).
Proof.
  intros H1 H2 H3 H4 pq queries sr. change (5 + n) with (S (S (S (S (S n))))).
  assert (Hstart :
            run claims_graph (S (S (S (S (S n))))) "generate_queries" state s =
              match retrieve_policy_node
                      (<["current_step" := PStr "queries_generated"]>
                         (<["policy_queries" := queries]> state)) sr with
              | (Ok state', s') => run claims_graph (S (S (S n))) "recommendation" state' s'
              | (Raise e, s') => (Raise e, s')
              end).
  { rewrite (run_unfold _ _ _ generate_queries_node) by reflexivity.
    rewrite (generate_queries_node_eq _ _ _ _ _ H2 H3 H4).
    change (world (entering "generate_queries" s)) with (world s).
    fold pq queries.
    follow_edge "generate_queries" "retrieve_policy".
    rewrite (run_unfold _ _ _ retrieve_policy_node) by reflexivity.
    match goal with |- context [retrieve_policy_node _ (entering ?a ?b)] =>
      replace (entering a b) with sr
        by (subst sr; unfold entering, events_to_retrieval; simpl; f_equal;
            repeat (rewrite <- app_assoc; simpl); reflexivity)
    end.
    destruct (retrieve_policy_node _ sr) as [[state'|e] s']; [|reflexivity].
    follow_edge "retrieve_policy" "recommendation". reflexivity. }
  rewrite Hstart. clear Hstart.
  set (st1 := <["current_step" := PStr "queries_generated"]>
                (<["policy_queries" := queries]> state)).
  assert (Hq : st1 !! "policy_queries" = Some queries)
    by (subst st1; simplify_map_eq; reflexivity).
  destruct (conforms HListStr queries) eqn:Hconf.
  2: { rewrite (retrieve_policy_node_refused st1 sr queries Hq Hconf). reflexivity. }
  destruct (retrieve_policy_node_eq st1 sr queries Hq Hconf)
    as [text [wr [calls [Hr [Hc Htext]]]]].
  rewrite Hr. exists text, calls, wr. cbv zeta.
  split; [exact Hc|]. split; [exact Htext|].
  set (st2 := <["current_step" := PStr "policy_retrieved"]>
                (<["retrieved_policy_text" := PStr text]> st1)).
  rewrite (run_unfold _ _ _ recommendation_node) by reflexivity.
  rewrite (recommendation_node_eq st2 _ claim_id vendor_name claim_amount invoice_items text)
    by (subst st2 st1; simplify_map_eq; reflexivity).
  change (world (entering "recommendation" _)) with wr.
  set (pr := recommendation_prompt claim_id vendor_name claim_amount invoice_items
               (str_take 2000 text)).
  set (ar := recommendation_answer (fst (llm_invoke pr wr))).
  change (<["current_step" := PStr "recommendation_generated"]>
            (<["recommendation_reasoning" := snd ar]> (<["recommendation" := fst ar]> st2)))
    with (recommended_state state queries text (fst ar) (snd ar)).
  set (st3 := recommended_state state queries text (fst ar) (snd ar)).
  follow_edge "recommendation" "price_check".
  rewrite (run_unfold _ _ _ price_check_node) by reflexivity.
  rewrite (price_check_node_eq st3 claim_amount)
    by (subst st3; unfold recommended_state; simplify_map_eq; reflexivity).
  destruct (py_gt_int (py_or claim_amount (PInt 0)) 10000) as [high|e].
  - set (st4 := price_checked_state st3 high).
    follow_edge "price_check" "finalize_decision".
    rewrite (run_unfold _ _ _ finalize_decision_node) by reflexivity.
    rewrite (finalize_decision_node_eq st4 _ claim_id (fst ar) (snd ar)
               (PStr (if high then "HIGH_AMOUNT_FLAGGED" else "WITHIN_NORMAL_RANGE")))
      by (subst st4 st3; unfold price_checked_state, recommended_state;
          simplify_map_eq; reflexivity).
    cbn [is_str]. rewrite andb_true_r.
    destruct (is_str (fst ar) && is_str (snd ar)).
    + follow_edge "finalize_decision" END.
      f_equal. unfold entering, events_to_price_check, events_to_retrieval,
        events_to_finalize, events_of_finalize. subst sr. simpl. f_equal.
      repeat (rewrite <- app_assoc; simpl). reflexivity.
    + f_equal. unfold entering, events_to_price_check, events_to_retrieval,
        events_to_finalize. subst sr. simpl. f_equal.
      repeat (rewrite <- app_assoc; simpl). reflexivity.
  - f_equal. unfold entering, events_to_price_check, events_to_retrieval.
    subst sr. simpl. f_equal.
    repeat (rewrite <- app_assoc; simpl). reflexivity.
Qed.

Lemma nodes_to_price_check (pq pr : prompt) (calls : list event) :
  collection_only calls ->
  nodes_entered (events_to_price_check pq pr calls) = stopped_at_price_check /\
  assignments (events_to_price_check pq pr calls) =
    ["policy_queries"; "current_step"; "retrieved_policy_text"; "current_step";
     "recommendation"; "recommendation_reasoning"; "current_step"].
Proof.
  intros Hc. destruct (collection_only_facts _ Hc) as [Hn Ha].
  unfold events_to_price_check.
  rewrite !nodes_entered_app, !assignments_app, Hn, Ha. split; reflexivity.
Qed.

(** what the claims use of the accept branch *)
Lemma accept_branch (n : nat) (state : ClaimState) (s : cstate)
    (claim_id vendor_name invoice_items claim_amount : pyval) :
  state !! "claim_id" = Some claim_id ->
  state !! "vendor_name" = Some vendor_name ->
  state !! "invoice_items" = Some invoice_items ->
  state !! "claim_amount" = Some claim_amount ->
  exists r sf evs,
    run claims_graph (5 + n) "generate_queries" state s = (r, sf) /\
    events sf = (events s ++ evs)%list /\
    match r with
    | Ok final =>
        nodes_entered evs = accept_path /\
        occurrences "final_decision" (assignments evs) = 1 /\
        is_Some (final !! "final_decision") /\
        is_Some (final !! "final_reasoning") /\
        exists queries text sr,
          final !! "policy_queries" = Some queries /\
          final !! "retrieved_policy_text" = Some (PStr text) /\
          fst (retrieve_policy_text queries sr) = Ok (PStr text)
    | Raise e =>
        occurrences "final_decision" (assignments evs) = 0 /\
        ((exn_cls e = TypeError /\ nodes_entered evs = stopped_at_price_check) \/
         (e = validation_error "retrieve_policy_text" /\
          nodes_entered evs = stopped_at_retrieval) \/
         (e = validation_error "finalize_decision" /\ nodes_entered evs = accept_path))
    end.
Proof.
  intros H1 H2 H3 H4.
  pose proof (accept_branch_exact n state s _ _ _ _ H1 H2 H3 H4) as Hx.
  cbv zeta in Hx.
  destruct (conforms HListStr _).
  - destruct Hx as [text [calls [wr [Hc [Htext Hrun]]]]].
    destruct (nodes_to_price_check
                (queries_prompt vendor_name invoice_items claim_amount)
                (recommendation_prompt claim_id vendor_name claim_amount invoice_items
                   (str_take 2000 text)) calls Hc) as [Hn Ha].
    rewrite Hrun.
    destruct (py_gt_int (py_or claim_amount (PInt 0)) 10000) as [high|e] eqn:Hgt.
    + cbv zeta. destruct (is_str _ && is_str _).
      * eexists _, _, (events_to_price_check _ _ calls ++ events_to_finalize ++
                       events_of_finalize _)%list.
        split; [reflexivity|].
        split; [cbn [events]; rewrite <- app_assoc; reflexivity|].
        rewrite !nodes_entered_app, !assignments_app, Hn, Ha.
        split; [reflexivity|]. split; [reflexivity|].
        unfold finalized_state, price_checked_state, recommended_state.
        split; [simplify_map_eq; eexists; reflexivity|].
        split; [simplify_map_eq; eexists; reflexivity|].
        eexists _, text, _. split; [simplify_map_eq; reflexivity|].
        split; [simplify_map_eq; reflexivity|].
        rewrite Htext. reflexivity.
      * eexists _, _, (events_to_price_check _ _ calls ++ events_to_finalize)%list.
        split; [reflexivity|].
        split; [cbn [events]; rewrite <- app_assoc; reflexivity|].
        rewrite !nodes_entered_app, !assignments_app, Hn, Ha.
        split; [reflexivity|]. right. right. split; reflexivity.
    + eexists _, _, _. split; [reflexivity|]. split; [reflexivity|].
      rewrite Hn, Ha. split; [reflexivity|].
      left. split; [exact (py_gt_int_raises _ _ _ Hgt)|reflexivity].
  - rewrite Hx. eexists _, _, _. split; [reflexivity|]. split; [reflexivity|].
    split; [reflexivity|]. right. left. split; reflexivity.
Qed.

End RunFacts.

Section BranchPoint.
Context `{Services}.

Lemma invoke_start (claim_json : string) (s0 : cstate) :
  process_claim claim_json s0 =
    run claims_graph recursion_limit "parse_claim" (initial_state claim_json) s0.
Proof. unfold process_claim. rewrite try_except_reraise. reflexivity. Qed.

(** the run up to the conditional edge, and what the edge does *)
Lemma validation_branch_point (claim_json : string) (s0 : cstate) :
  exists (d : list (string * pyval)) (s1 s2 : cstate),
    let parsed := parsed_state (initial_state claim_json) d in
    let p := validate_prompt (field d "claim_id") (field d "policy_holder")
               (field d "vendor_name") (field d "claim_amount") in
    let a := validation_answer (fst (llm_invoke p (world s1))) in
    let validated := validated_state parsed (fst a) (snd a) in
    parse_claim_node (initial_state claim_json) (entering "parse_claim" s0)
      = (Ok parsed, s1) /\
    validate_claim_node parsed (entering "validate_claim" s1) = (Ok validated, s2) /\
    (exists evs,
       events s2 = (events s0 ++ evs)%list /\
       nodes_entered evs = ["parse_claim"; "validate_claim"] /\
       occurrences "final_decision" (assignments evs) = 0) /\
    process_claim claim_json s0 =
      if py_truthy (fst a)
      then run claims_graph 23 "generate_queries" validated s2
      else (Ok (rejected_state validated (snd a)),
            CState (world s2) (events s2 ++ reject_events)%list).
Proof.
  destruct (parse_claim_node_ok (initial_state claim_json) (entering "parse_claim" s0)
              claim_json) as [d [w1 Hparse]].
  { unfold initial_state. simplify_map_eq. reflexivity. }
  match type of Hparse with _ = (_, ?x) => set (s1 := x) in * end.
  exists d, s1.
  set (parsed := parsed_state (initial_state claim_json) d).
  set (p := validate_prompt (field d "claim_id") (field d "policy_holder")
              (field d "vendor_name") (field d "claim_amount")).
  assert (Hval := validate_claim_node_eq parsed (entering "validate_claim" s1)
            (field d "claim_id") (field d "policy_holder")
            (field d "vendor_name") (field d "claim_amount")).
  cbv zeta in Hval. fold p in Hval.
  change (world (entering "validate_claim" s1)) with (world s1) in Hval.
  set (a := validation_answer (fst (llm_invoke p (world s1)))) in *.
  set (validated := validated_state parsed (fst a) (snd a)) in *.
  match type of Hval with _ -> _ -> _ -> _ -> _ = (_, ?x) => set (s2 := x) in * end.
  assert (Hval' : validate_claim_node parsed (entering "validate_claim" s1)
                  = (Ok validated, s2)).
  { apply Hval; subst parsed; unfold parsed_state; simplify_map_eq; reflexivity. }
  exists s2. cbv zeta. fold parsed p a validated.
  split; [exact Hparse|]. split; [exact Hval'|]. split.
  { eexists. split.
    - subst s2 s1. unfold entering. simpl. rewrite <- !app_assoc. reflexivity.
    - split; reflexivity. }
  rewrite invoke_start. unfold recursion_limit.
  rewrite (run_unfold _ _ _ parse_claim_node) by reflexivity.
  rewrite Hparse. fold parsed.
  follow_edge "parse_claim" "validate_claim".
  rewrite (run_unfold _ _ _ validate_claim_node) by reflexivity.
  rewrite Hval'.
  assert (Hroute : successor claims_graph "validate_claim" validated s2 =
            (Ok (if py_truthy (fst a) then "generate_queries" else "invalid_claim"), s2)).
  { change (successor claims_graph "validate_claim" validated s2) with
      (bind (should_continue_after_validation validated)
         (fun branch =>
            match assoc branch [("continue", "generate_queries"); ("invalid", "invalid_claim")]
            with
            | Some dst => ret dst
            | None => raise (Exn KeyError ("'" +:+ branch +:+ "'"))
            end) s2).
    unfold bind. rewrite (should_continue_eq validated s2 (fst a))
      by (subst validated; unfold validated_state; simplify_map_eq; reflexivity).
    destruct (py_truthy (fst a)); reflexivity. }
  rewrite Hroute. destruct (py_truthy (fst a)).
  - reflexivity.
  - change (String.eqb "invalid_claim" END) with false. cbv iota.
    rewrite (run_unfold _ _ _ invalid_claim_node) by reflexivity.
    rewrite (invalid_claim_node_eq validated _ (snd a))
      by (subst validated; unfold validated_state; simplify_map_eq; reflexivity).
    follow_edge "invalid_claim" END.
    unfold entering, reject_events. simpl. rewrite <- !app_assoc. reflexivity.
Qed.

End BranchPoint.

Section PipelineProperties.
Context `{Services}.

(** C1: every run reaches the conditional edge with [is_valid] and
    [validation_reason] set by the validation node.  When [is_valid] is
    true (truthy) the run goes on with the query-generation node; when it
    is false or None the run ends at once in the reject node, with
    final_decision INVALID and final_reasoning equal to the validation
    reason.  An answer of the validation collaborator without [is_valid]
    counts as False. *)
Theorem validation_routing (claim_json : string) (s0 : cstate) :
  exists (parsed validated : ClaimState) (s1 s2 : cstate) (is_valid reason : pyval),
    parse_claim_node (initial_state claim_json) (entering "parse_claim" s0)
      = (Ok parsed, s1) /\
    validate_claim_node parsed (entering "validate_claim" s1) = (Ok validated, s2) /\
    validated !! "is_valid" = Some is_valid /\
    validated !! "validation_reason" = Some reason /\
    (if py_truthy is_valid
     then process_claim claim_json s0 =
            run claims_graph 23 "generate_queries" validated s2 /\
          exists rest,
            nodes_entered (events (snd (process_claim claim_json s0))) =
              (nodes_entered (events s0) ++
               ["parse_claim"; "validate_claim"; "generate_queries"] ++ rest)%list
     else exists final,
            process_claim claim_json s0 =
              (Ok final, CState (world s2) (events s2 ++ reject_events)%list) /\
            nodes_entered (events s2 ++ reject_events) =
              (nodes_entered (events s0) ++
               ["parse_claim"; "validate_claim"; "invalid_claim"])%list /\
            final !! "final_decision" = Some (PStr "INVALID") /\
            final !! "final_reasoning" = Some reason /\
            final !! "is_valid" = Some is_valid) /\
    py_truthy (PBool true) = true /\
    py_truthy (PBool false) = false /\
    py_truthy PNone = false /\
    (forall response d,
       extract_json response = Ok (PDict d) ->
       dict_lookup d "is_valid" = None ->
       fst (validation_answer (Ok response)) = PBool false).
Proof.
  destruct (validation_branch_point claim_json s0) as [d [s1 [s2 Hb]]].
  cbv zeta in Hb. destruct Hb as [Hparse [Hval [[evs [Hev [Hn Ha]]] Hrun]]].
  set (parsed := parsed_state (initial_state claim_json) d) in *.
  set (a := validation_answer _) in *.
  set (validated := validated_state parsed (fst a) (snd a)) in *.
  exists parsed, validated, s1, s2, (fst a), (snd a).
  split; [exact Hparse|]. split; [exact Hval|].
  split; [subst validated; unfold validated_state; simplify_map_eq; reflexivity|].
  split; [subst validated; unfold validated_state; simplify_map_eq; reflexivity|].
  split.
  - destruct (py_truthy (fst a)) eqn:Ht.
    + split; [exact Hrun|]. rewrite Hrun.
      assert (Hkeys : validated !! "claim_id" = Some (field d "claim_id") /\
                      validated !! "vendor_name" = Some (field d "vendor_name") /\
                      validated !! "invoice_items" = Some (field d "invoice_items") /\
                      validated !! "claim_amount" = Some (field d "claim_amount")).
      { subst validated parsed. unfold validated_state, parsed_state.
        repeat split; simplify_map_eq; reflexivity. }
      destruct Hkeys as [K1 [K2 [K3 K4]]].
      destruct (accept_branch 18 validated s2 _ _ _ _ K1 K2 K3 K4)
        as [r [sf [evs' [Hr [Hev' Hcase]]]]].
      change (5 + 18) with 23 in Hr. rewrite Hr. simpl.
      rewrite Hev', Hev, !nodes_entered_app, Hn.
      destruct r as [final|e].
      * destruct Hcase as [Hp _]. rewrite Hp. eexists.
        rewrite <- app_assoc. reflexivity.
      * destruct Hcase as [_ [[_ Hp]|[[_ Hp]|[_ Hp]]]]; rewrite Hp; eexists;
          rewrite <- app_assoc; reflexivity.
    + exists (rejected_state validated (snd a)). split; [exact Hrun|].
      split.
      { rewrite Hev, !nodes_entered_app, Hn. rewrite <- app_assoc. reflexivity. }
      subst validated. unfold rejected_state, validated_state.
      repeat split; simplify_map_eq; reflexivity.
  - repeat split; try reflexivity.
    intros response d' Hx Hl. simpl. rewrite Hx, Hl. reflexivity.
Qed.

End PipelineProperties.

Section PipelineProperties2.
Context `{Services}.

Lemma validated_keys (claim_json : string) (d : list (string * pyval)) (a b : pyval) :
  let validated := validated_state (parsed_state (initial_state claim_json) d) a b in
  validated !! "claim_id" = Some (field d "claim_id") /\
  validated !! "vendor_name" = Some (field d "vendor_name") /\
  validated !! "invoice_items" = Some (field d "invoice_items") /\
  validated !! "claim_amount" = Some (field d "claim_amount").
Proof.
  unfold validated_state, parsed_state. repeat split; simplify_map_eq; reflexivity.
Qed.

(** C2, amended: in every run that returns a final state, exactly one of
    the finalize node and the reject node has run, final_decision has
    been assigned exactly once, and the final state holds it. *)
Theorem terminal_stage_once (claim_json : string) (s0 sf : cstate) (final : ClaimState) :
  process_claim claim_json s0 = (Ok final, sf) ->
  exists evs,
    events sf = (events s0 ++ evs)%list /\
    occurrences "finalize_decision" (nodes_entered evs)
      + occurrences "invalid_claim" (nodes_entered evs) = 1 /\
    occurrences "final_decision" (assignments evs) = 1 /\
    is_Some (final !! "final_decision").
Proof.
  intros Hrun.
  destruct (validation_branch_point claim_json s0) as [d [s1 [s2 Hb]]].
  cbv zeta in Hb. destruct Hb as [_ [_ [[evs [Hev [Hn Ha]]] Hrun']]].
  set (a := validation_answer _) in *.
  rewrite Hrun in Hrun'. destruct (py_truthy (fst a)).
  - destruct (validated_keys claim_json d (fst a) (snd a)) as [K1 [K2 [K3 K4]]].
    destruct (accept_branch 18 _ s2 _ _ _ _ K1 K2 K3 K4)
      as [r [sf' [evs' [Hr [Hev' Hcase]]]]].
    change (5 + 18) with 23 in Hr. rewrite Hr in Hrun'. injection Hrun' as <- <-.
    destruct Hcase as [Hp [Hc [Hd _]]].
    exists (evs ++ evs')%list. rewrite Hev', Hev, <- app_assoc.
    rewrite nodes_entered_app, assignments_app, !occurrences_app, Hn, Hp, Ha, Hc.
    repeat split; try reflexivity. exact Hd.
  - injection Hrun' as -> ->. exists (evs ++ reject_events)%list. simpl.
    rewrite Hev, <- app_assoc.
    rewrite nodes_entered_app, assignments_app, !occurrences_app, Hn, Ha.
    repeat split; try reflexivity.
    unfold rejected_state. simplify_map_eq. eexists; reflexivity.
Qed.

(** C5, amended: when the completion service fails on every call, every
    run returns: the validation node stores is_valid False with the reason
    "Validation error: " followed by the message of the failure, the run
    ends in the reject node with final_decision INVALID and that reason,
    and the recommendation node never runs. *)
Theorem outage_rejects (claim_json : string) (s0 : cstate) :
  (forall p w, is_Raise (fst (llm_invoke p w)) = true) ->
  exists final sf e,
    process_claim claim_json s0 = (Ok final, sf) /\
    nodes_entered (events sf) =
      (nodes_entered (events s0) ++
       ["parse_claim"; "validate_claim"; "invalid_claim"])%list /\
    (exists p w, fst (llm_invoke p w) = Raise e) /\
    final !! "is_valid" = Some (PBool false) /\
    final !! "final_decision" = Some (PStr "INVALID") /\
    final !! "final_reasoning" = Some (PStr ("Validation error: " +:+ str_exn e)) /\
    final !! "recommendation" = None /\
    final !! "price_check_result" = None.
Proof.
  intros Hdown.
  destruct (validation_branch_point claim_json s0) as [d [s1 [s2 Hb]]].
  cbv zeta in Hb. destruct Hb as [_ [_ [[evs [Hev [Hn Ha]]] Hrun]]].
  set (p := validate_prompt _ _ _ _) in *.
  specialize (Hdown p (world s1)).
  destruct (fst (llm_invoke p (world s1))) as [response|e] eqn:Hllm; [discriminate|].
  simpl in Hrun.
  eexists _, _, e. split; [exact Hrun|]. split.
  { simpl. rewrite Hev, !nodes_entered_app, Hn, <- app_assoc. reflexivity. }
  split; [exists p, (world s1); exact Hllm|].
  unfold rejected_state, validated_state, parsed_state, initial_state.
  repeat split; simplify_map_eq; reflexivity.
Qed.

(** C6, amended: on a list of queries that the collection answers, the
    retrieval stage asks for the 3 best matches of each query, in order,
    and stores the non-empty texts joined by the delimiter, in query
    order: the tool returns that text and the node, which calls it
    through the wrapper, stores it; on the empty list the tool returns
    the empty string without calling the collection.  A run whose query
    list is empty and that returns has gone through the accept path to
    the finalize node with the empty policy text.  A run that does not
    return has been stopped on the accept path in one of three ways: by
    the wrapper of the retrieval tool (the stored queries are refused),
    by a TypeError of the price-check node, or by the wrapper of the
    finalize tool, inside the finalize node. *)
Theorem retrieval_concatenates (queries : list string) (s : cstate)
    (texts sent : list string) (w' : World) (claim_json : string) (s0 : cstate) :
  fetch_all queries (world s) = (Ok texts, w', sent) ->
  let joined := str_join delimiter (List.filter nonempty texts) in
  (retrieve_policy_text (PList (map PStr queries)) s =
     (Ok (PStr joined), CState w' (events s ++ top3 queries)%list) /\
   length texts = length queries) /\
  (forall state : ClaimState,
     state !! "policy_queries" = Some (PList (map PStr queries)) ->
     retrieve_policy_node state s =
       (Ok (<["current_step" := PStr "policy_retrieved"]>
              (<["retrieved_policy_text" := PStr joined]> state)),
        CState w' (events s ++ top3 queries ++
                   map Assign ["retrieved_policy_text"; "current_step"])%list)) /\
  retrieve_policy_text (PList []) s = (Ok (PStr EmptyString), s) /\
  match process_claim claim_json s0 with
  | (Ok final, sf) =>
      final !! "policy_queries" = Some (PList []) ->
      final !! "retrieved_policy_text" = Some (PStr EmptyString) /\
      nodes_entered (events sf) =
        (nodes_entered (events s0) ++ ["parse_claim"; "validate_claim"] ++ accept_path)%list
  | (Raise e, sf) =>
      exists stopped,
        nodes_entered (events sf) =
          (nodes_entered (events s0) ++ ["parse_claim"; "validate_claim"] ++ stopped)%list /\
        ((e = validation_error "retrieve_policy_text" /\ stopped = stopped_at_retrieval) \/
         (exn_cls e = TypeError /\ stopped = stopped_at_price_check) \/
         (e = validation_error "finalize_decision" /\ stopped = accept_path))
  end.
Proof.
  intros Hfetch joined.
  destruct (fetch_all_sent _ _ _ _ _ Hfetch) as [-> Hlen].
  assert (Htool : retrieve_policy_text (PList (map PStr queries)) s =
                    (Ok (PStr joined), CState w' (events s ++ top3 queries)%list))
    by (rewrite retrieve_policy_text_fetch, Hfetch; reflexivity).
  split; [split; [exact Htool|exact Hlen]|]. split; [|split].
  - intros state Hq. unfold retrieve_policy_node, getitem, bind at 1. rewrite Hq.
    unfold ret at 1.
    rewrite tool_invoke_ok by (cbn [forallb fst snd]; rewrite conforms_strings; reflexivity).
    unfold bind at 1. rewrite Htool.
    unfold setitem, bind, emit, ret. simpl. rewrite <- !app_assoc. reflexivity.
  - reflexivity.
  - destruct (validation_branch_point claim_json s0) as [d [s1 [s2 Hb]]].
    cbv zeta in Hb. destruct Hb as [_ [_ [[evs [Hev [Hn Ha]]] Hrun]]].
    set (a := validation_answer _) in *.
    rewrite Hrun. destruct (py_truthy (fst a)).
    + destruct (validated_keys claim_json d (fst a) (snd a)) as [K1 [K2 [K3 K4]]].
      destruct (accept_branch 18 _ s2 _ _ _ _ K1 K2 K3 K4)
        as [r [sf [evs' [Hr [Hev' Hcase]]]]].
      change (5 + 18) with 23 in Hr. rewrite Hr.
      destruct r as [final|e].
      * destruct Hcase as [Hp [_ [_ [_ [q [t [sr [Hq [Ht Hrt]]]]]]]]].
        intros Hempty. rewrite Hq in Hempty. injection Hempty as ->.
        rewrite retrieve_policy_text_nil in Hrt. simpl in Hrt. injection Hrt as <-.
        split; [exact Ht|].
        rewrite Hev', Hev, !nodes_entered_app, Hn, Hp, <- app_assoc. reflexivity.
      * destruct Hcase as [_ Hcase]. exists (nodes_entered evs').
        split; [rewrite Hev', Hev, !nodes_entered_app, Hn, <- app_assoc; reflexivity|].
        tauto.
    + intros Hq. exfalso. revert Hq.
      unfold rejected_state, validated_state, parsed_state, initial_state.
      simplify_map_eq. discriminate.
Qed.

(** C7, amended: the query-generation stage always returns, with
    policy_queries set to a value that has a length: the empty list when
    the completion service fails, when its answer cannot be decoded or
    when the decoded value has no length, and otherwise the decoded value
    itself (for an object, its "queries" entry), whatever its length: a
    decoded array is stored unchanged. *)
Theorem queries_stored_as_returned (state : ClaimState) (s : cstate)
    (vendor_name invoice_items claim_amount : pyval) :
  state !! "vendor_name" = Some vendor_name ->
  state !! "invoice_items" = Some invoice_items ->
  state !! "claim_amount" = Some claim_amount ->
  let answer := fst (llm_invoke (queries_prompt vendor_name invoice_items claim_amount)
                       (world s)) in
  exists (state' : ClaimState) (s' : cstate) (queries : pyval),
    generate_queries_node state s = (Ok state', s') /\
    state' !! "policy_queries" = Some queries /\
    sized queries = true /\
    (is_Raise answer = true -> queries = PList []) /\
    (forall response,
       answer = Ok response ->
       match extract_json response with
       | Raise _ => queries = PList []
       | Ok (PList l) => queries = PList l
       | Ok (PDict d) =>
           match dict_lookup d "queries" with
           | Some (PList l) => queries = PList l
           | None => queries = PList []
           | Some v => queries = if sized v then v else PList []
           end
       | Ok v => queries = if sized v then v else PList []
       end).
Proof.
  intros H1 H2 H3 answer.
  rewrite (generate_queries_node_eq _ _ _ _ _ H1 H2 H3). fold answer.
  eexists _, _, (queries_answer answer). split; [reflexivity|].
  split; [simplify_map_eq; reflexivity|]. split; [|split].
  - unfold queries_answer. destruct answer as [response|e]; [|reflexivity].
    destruct (extract_json response) as [v|e]; [|reflexivity].
    destruct v as [| | | | | |d]; try reflexivity.
    simpl. destruct (dict_lookup d "queries") as [[]|]; reflexivity.
  - destruct answer; [discriminate|reflexivity].
  - intros response ->. unfold queries_answer.
    destruct (extract_json response) as [v|e]; [|reflexivity].
    destruct v as [| | | | | |d]; try reflexivity.
    simpl. destruct (dict_lookup d "queries") as [[]|]; reflexivity.
Qed.

End PipelineProperties2.

Opaque str_take.

Section Recommendation.
Context `{Services}.

(** C8: the recommendation stage sends the completion service a prompt
    whose policy text is the first 2000 characters of the retrieved text,
    at most; when the service raises, or its answer cannot be decoded, the
    stage returns, with recommendation ERROR and the message of the error
    as its reasoning. *)
Theorem recommendation_context_and_error (state : ClaimState) (s : cstate)
    (claim_id vendor_name claim_amount invoice_items : pyval) (policy_text : string) :
  state !! "claim_id" = Some claim_id ->
  state !! "vendor_name" = Some vendor_name ->
  state !! "claim_amount" = Some claim_amount ->
  state !! "invoice_items" = Some invoice_items ->
  state !! "retrieved_policy_text" = Some (PStr policy_text) ->
  let context := str_take 2000 policy_text in
  let p := recommendation_prompt claim_id vendor_name claim_amount invoice_items context in
  String.length context <= 2000 /\
  (exists rest, policy_text = context +:+ rest) /\
  exists state',
    recommendation_node state s =
      (Ok state',
       CState (snd (llm_invoke p (world s)))
         (events s ++ [CallLLM p; Assign "recommendation";
                       Assign "recommendation_reasoning";
                       Assign "current_step"])%list) /\
    match fst (llm_invoke p (world s)) with
    | Raise e =>
        state' !! "recommendation" = Some (PStr "ERROR") /\
        state' !! "recommendation_reasoning" = Some (PStr (str_exn e))
    | Ok response =>
        match extract_json response with
        | Raise e =>
            state' !! "recommendation" = Some (PStr "ERROR") /\
            state' !! "recommendation_reasoning" = Some (PStr (str_exn e))
        | Ok _ => True
        end
    end.
Proof.
  intros H1 H2 H3 H4 H5 context p.
  split; [apply str_take_length|]. split; [apply str_take_prefix|].
  unfold recommendation_node, getitem, bind.
  rewrite H1, H2, H3, H4, H5. simpl.
  rewrite tool_invoke_ok by reflexivity.
  unfold generate_recommendation, try_except, bind, lift, llm. simpl.
  fold context.
  fold (recommendation_prompt claim_id vendor_name claim_amount invoice_items context).
  fold p.
  destruct (llm_invoke p (world s)) as [[response|e] w']; simpl.
  - destruct (extract_json response) as [v|e]; simpl.
    + destruct v; simpl; eexists; (split; [rewrite <- !app_assoc; reflexivity|exact I]).
    + eexists. split; [rewrite <- !app_assoc; reflexivity|].
      split; simplify_map_eq; reflexivity.
  - eexists. split; [rewrite <- !app_assoc; reflexivity|].
    split; simplify_map_eq; reflexivity.
Qed.

End Recommendation.

Transparent str_take.

(** ** The response extractor *)

Section Extraction.
Context `{Services}.

Lemma extract_json_bare (text : string) (v : pyval) :
  json_loads text = Ok v -> extract_json text = Ok v.
Proof. intros Hv. unfold extract_json. rewrite Hv. reflexivity. Qed.

Lemma extract_json_fallback (text : string) :
  raises_decode_error text ->
  extract_json text =
    match re_search fenced_pattern text with
    | Some m => loads_group m
    | None =>
        match re_search bare_pattern text with
        | Some m => loads_group m
        | None => Raise (Exn ValueError ("Could not extract JSON from: " +:+ text))
        end
    end.
Proof.
  intros [e [He Hcls]]. unfold extract_json. rewrite He, Hcls. reflexivity.
Qed.

Lemma extract_json_no_opening (text : string) :
  no_opening text = true ->
  raises_decode_error text ->
  extract_json text = Raise (Exn ValueError ("Could not extract JSON from: " +:+ text)).
Proof.
  intros Hno Hraw. rewrite (extract_json_fallback _ Hraw).
  rewrite (fenced_search_no_opening _ Hno), (bare_search_none _ Hno). reflexivity.
Qed.

(** C4, amended: for an object or an array whose serialization [s] the
    decoder accepts as [v], the extractor returns [v] on [s] itself; on
    [s] in a json code block, whatever is nested in [s], when neither [s]
    nor the text before the block has a backtick; and on [s] inside
    prose, when the text has no backtick, the prose before [s] no opening
    brace or bracket, and [s] no closing bracket of its kind before its
    last character.  In the last two shapes the whole text is not JSON
    itself: its direct parse raises a decode error.  A text the decoder
    accepts that has no opening brace or bracket, such as a number, is
    extracted from the bare shape only: in a code block or in prose
    without opening brace or bracket, the extractor raises ValueError.
    When the direct parse raises and what the patterns find cannot be
    decoded, the extractor raises instead of returning a value: a
    ValueError when the direct parse raised a decode error and neither
    pattern finds anything. *)
Theorem extraction_shapes (b : bracket) (body : string) (v : pyval) :
  let s := enclosed b body in
  json_loads s = Ok v ->
  extract_json s = Ok v /\
  (forall pre ws1 ws2 post,
     has_char backtick pre = false ->
     has_char backtick body = false ->
     all_space ws1 = true ->
     all_space ws2 = true ->
     raises_decode_error (fenced pre ws1 s ws2 post) ->
     extract_json (fenced pre ws1 s ws2 post) = Ok v) /\
  (forall before after,
     has_char backtick (before +:+ s +:+ after) = false ->
     no_opening before = true ->
     has_char (closing b) body = false ->
     raises_decode_error (before +:+ s +:+ after) ->
     extract_json (before +:+ s +:+ after) = Ok v) /\
  (forall (scalar : string) (v' : pyval) (pre ws1 ws2 post before after : string),
     json_loads scalar = Ok v' ->
     extract_json scalar = Ok v' /\
     (no_opening (fenced pre ws1 scalar ws2 post) = true ->
      raises_decode_error (fenced pre ws1 scalar ws2 post) ->
      extract_json (fenced pre ws1 scalar ws2 post) =
        Raise (Exn ValueError
                 ("Could not extract JSON from: " +:+ fenced pre ws1 scalar ws2 post))) /\
     (no_opening (before +:+ scalar +:+ after) = true ->
      raises_decode_error (before +:+ scalar +:+ after) ->
      extract_json (before +:+ scalar +:+ after) =
        Raise (Exn ValueError
                 ("Could not extract JSON from: " +:+ before +:+ scalar +:+ after)))) /\
  (forall text,
     is_Raise (json_loads text) = true ->
     (forall m, re_search fenced_pattern text = Some m -> is_Raise (loads_group m) = true) ->
     (forall m, re_search bare_pattern text = Some m -> is_Raise (loads_group m) = true) ->
     is_Raise (extract_json text) = true /\
     (raises_decode_error text ->
      re_search fenced_pattern text = None ->
      re_search bare_pattern text = None ->
      extract_json text = Raise (Exn ValueError ("Could not extract JSON from: " +:+ text)))).
Proof.
  intros s Hv.
  split; [exact (extract_json_bare _ _ Hv)|]. split; [|split; [|split]].
  - intros pre ws1 ws2 post Hpre Hbody Hws1 Hws2 Hfenced.
    rewrite (extract_json_fallback _ Hfenced).
    subst s. rewrite (fenced_search b pre ws1 body ws2 post Hpre Hbody Hws1 Hws2).
    exact Hv.
  - intros before after Hprose Hbefore Hclose Hraw.
    apply andb_prop in Hbefore as [Hbrace Hsquare].
    apply negb_true_iff in Hbrace, Hsquare.
    rewrite (extract_json_fallback _ Hraw).
    rewrite (fenced_search_none _ Hprose).
    subst s. rewrite (bare_search b before body after Hbrace Hsquare Hclose).
    exact Hv.
  - intros scalar v' pre ws1 ws2 post before after Hscalar.
    split; [exact (extract_json_bare _ _ Hscalar)|].
    split; apply extract_json_no_opening.
  - intros text Htext Hf Hb. split.
    + unfold extract_json.
      destruct (json_loads text) as [v0|e]; [discriminate Htext|].
      destruct (is_JSONDecodeError e); [|reflexivity].
      destruct (re_search fenced_pattern text) as [m|]; [apply Hf; reflexivity|].
      destruct (re_search bare_pattern text) as [m|]; [apply Hb; reflexivity|].
      reflexivity.
    + intros Hraw Hnf Hnb. rewrite (extract_json_fallback _ Hraw), Hnf, Hnb. reflexivity.
Qed.

End Extraction.

(** ** Worked runs *)

Module Runs.
Import Scenario.

(** an object that holds another object, bare and in a code block; a flat
    object inside prose; a number in a code block *)
Lemma extraction_shapes_example :
  let nested := enclosed Brace nested_body in
  let flat := enclosed Brace object_body in
  let v := PDict [("a", PDict [("b", PInt 1)])] in
  let v' := PDict [("is_valid", PBool true); ("reason", PStr EmptyString)] in
  @extract_json outage nested = Ok v /\
  @extract_json outage
    (fenced ("Here is the verdict:" +:+ newline) newline nested newline
       (newline +:+ "Done.")) = Ok v /\
  @extract_json outage ("The verdict is " +:+ flat +:+ " as requested.") = Ok v' /\
  @extract_json outage (fenced EmptyString newline "5" newline EmptyString) =
    Raise (Exn ValueError
             ("Could not extract JSON from: " +:+
              fenced EmptyString newline "5" newline EmptyString)).
Proof.
  intros nested flat v v'.
  destruct (@extraction_shapes outage Brace nested_body v)
    as [H1 [H2 [_ [H4 _]]]]; [reflexivity|].
  destruct (@extraction_shapes outage Brace object_body v')
    as [_ [_ [H3 _]]]; [reflexivity|].
  split; [exact H1|]. split; [|split].
  - apply H2; try reflexivity.
    eexists. split; [vm_compute; reflexivity|reflexivity].
  - apply H3; try reflexivity.
    eexists. split; [vm_compute; reflexivity|reflexivity].
  - destruct (H4 "5" (PInt 5) EmptyString newline newline EmptyString
                EmptyString EmptyString eq_refl) as [_ [H5 _]].
    apply H5; [reflexivity|].
    eexists. split; [vm_compute; reflexivity|reflexivity].
Defined.

(** a number is decoded from the bare text and not from a code block; an
    object with a nested object is not decoded from prose *)
Lemma scalar_in_code_block :
  @json_loads outage "5" = Ok (PInt 5) /\
  @extract_json outage "5" = Ok (PInt 5) /\
  @extract_json outage (fenced EmptyString newline "5" newline EmptyString) =
    Raise (Exn ValueError
             ("Could not extract JSON from: " +:+
              fenced EmptyString newline "5" newline EmptyString)) /\
  (exists v, @json_loads outage (quoted "{'a': {'b': 1}}") = Ok v) /\
  is_Raise (@extract_json outage (quoted "Result: {'a': {'b': 1}} done")) = true.
Proof.
  split; [reflexivity|]. split; [reflexivity|]. split; [vm_compute; reflexivity|].
  split; [eexists; vm_compute; reflexivity|vm_compute; reflexivity].
Qed.

(** a run whose parsed amount is a string stops in the price-check node:
    neither the finalize node nor the reject node runs, and
    final_decision is never assigned *)
Lemma string_amount_run :
  let r := @process_claim string_amount claim (start string_amount tt) in
  is_Raise (fst r) = true /\
  nodes_entered (events (snd r)) =
    ["parse_claim"; "validate_claim"; "generate_queries"; "retrieve_policy";
     "recommendation"; "price_check"] /\
  occurrences "finalize_decision" (nodes_entered (events (snd r)))
    + occurrences "invalid_claim" (nodes_entered (events (snd r))) = 0 /\
  occurrences "final_decision" (assignments (events (snd r))) = 0.
Proof. vm_compute. repeat split. Qed.

Lemma terminal_stage_once_example :
  exists final sf evs,
    @process_claim numeric_amount claim (start numeric_amount tt) = (Ok final, sf) /\
    events sf = evs /\
    occurrences "finalize_decision" (nodes_entered evs)
      + occurrences "invalid_claim" (nodes_entered evs) = 1 /\
    occurrences "final_decision" (assignments evs) = 1 /\
    is_Some (final !! "final_decision").
Proof.
  assert (Hok : is_Raise (fst (@process_claim numeric_amount claim (start numeric_amount tt)))
                = false) by (vm_compute; reflexivity).
  destruct (@process_claim numeric_amount claim (start numeric_amount tt))
    as [[final|e] sf] eqn:Hrun; [|discriminate Hok].
  destruct (@terminal_stage_once numeric_amount claim (start numeric_amount tt) sf final Hrun)
    as [evs [Hev [Hn [Ha Hd]]]].
  exists final, sf, evs. repeat split; assumption.
Defined.

(** with the completion service down, the run ends as INVALID: neither
    the recommendation nor the final decision is ERROR *)
Lemma outage_run :
  match fst (@process_claim outage claim (start outage tt)) with
  | Ok final =>
      final !! "recommendation" = None /\
      final !! "final_decision" = Some (PStr "INVALID") /\
      ~ (final !! "recommendation" = Some (PStr "ERROR") \/
         final !! "final_decision" = Some (PStr "ERROR"))
  | Raise _ => False
  end.
Proof.
  vm_compute. split; [reflexivity|]. split; [reflexivity|].
  intros [Hr|Hd]; discriminate.
Qed.

Lemma outage_rejects_example :
  exists final sf,
    @process_claim outage claim (start outage tt) = (Ok final, sf) /\
    final !! "final_decision" = Some (PStr "INVALID") /\
    final !! "final_reasoning" = Some (PStr "Validation error: Connection error.").
Proof.
  destruct (@outage_rejects outage claim (start outage tt)) as [final [sf [e Hout]]].
  - intros p w. reflexivity.
  - destruct Hout as [Hrun [_ [[p [w Hp]] [_ [Hd [Hr _]]]]]].
    exists final, sf. split; [exact Hrun|]. split; [exact Hd|].
    injection Hp as <-. exact Hr.
Defined.

(** no query and a string amount: the retrieval node runs without a
    call of the collection, and the run stops in the price-check node
    instead of reaching the finalize node *)
Lemma no_query_string_amount_run :
  let r := @process_claim string_amount claim (start string_amount tt) in
  fst (@generate_policy_queries string_amount
         (PDict [("vendor_name", PStr "AutoFix"); ("invoice_items", PList []);
                 ("claim_amount", PStr "550")]) (start string_amount tt)) = Ok (PList []) /\
  fst r = Raise (Exn TypeError "'>' not supported between instances of 'str' and 'int'") /\
  nodes_entered (events (snd r)) =
    ["parse_claim"; "validate_claim"; "generate_queries"; "retrieve_policy";
     "recommendation"; "price_check"] /\
  occurrences "finalize_decision" (nodes_entered (events (snd r))) = 0.
Proof. vm_compute. repeat split. Qed.

Lemma retrieval_concatenates_example :
  @retrieve_policy_text towing_collection (PList [PStr "towing"; PStr "repairs"])
    (start towing_collection tt) =
    (Ok (PStr ("towing is covered" +:+ newline +:+ newline +:+ "up to 100 miles")),
     @CState towing_collection tt
       [CallQuery (PStr "towing") 3; CallQuery (PStr "repairs") 3]) /\
  exists final,
    fst (@process_claim numeric_amount claim (start numeric_amount tt)) = Ok final /\
    final !! "retrieved_policy_text" = Some (PStr EmptyString).
Proof.
  destruct (@retrieval_concatenates towing_collection ["towing"; "repairs"]
              (start towing_collection tt)
              [("towing is covered" +:+ newline +:+ newline +:+ "up to 100 miles");
               EmptyString]
              ["towing"; "repairs"] tt claim (start towing_collection tt) eq_refl)
    as [[Hjoin _] _].
  split; [exact Hjoin|].
  destruct (@retrieval_concatenates numeric_amount [] (start numeric_amount tt) [] [] tt
              claim (start numeric_amount tt) eq_refl) as [_ [_ [_ Hrun]]].
  assert (Hq : match fst (@process_claim numeric_amount claim (start numeric_amount tt)) with
               | Ok final => final !! "policy_queries" = Some (PList [])
               | Raise _ => False
               end) by (vm_compute; reflexivity).
  destruct (@process_claim numeric_amount claim (start numeric_amount tt))
    as [[final|e] sf]; [|destruct Hq].
  exists final. split; [reflexivity|]. apply Hrun. exact Hq.
Defined.

(** four queries come back and four are stored *)
Lemma four_queries_stored :
  match fst (@generate_queries_node four_queries
               (parsed_state (initial_state claim) []) (start four_queries tt)) with
  | Ok state' =>
      state' !! "policy_queries" =
        Some (PList [PStr "towing"; PStr "repairs"; PStr "limits"; PStr "vendors"]) /\
      ~ (exists l, state' !! "policy_queries" = Some (PList l) /\ length l <= 3)
  | Raise _ => False
  end.
Proof.
  vm_compute. split; [reflexivity|].
  intros [l [Hl Hlen]]. injection Hl as <-. simpl in Hlen. lia.
Qed.

Lemma queries_stored_as_returned_example :
  exists state' s',
    @generate_queries_node four_queries (parsed_state (initial_state claim) [])
      (start four_queries tt) = (Ok state', s') /\
    state' !! "policy_queries" =
      Some (PList [PStr "towing"; PStr "repairs"; PStr "limits"; PStr "vendors"]).
Proof.
  destruct (@queries_stored_as_returned four_queries
              (parsed_state (initial_state claim) []) (start four_queries tt) PNone PNone PNone)
    as [state' [s' [queries [Hrun [Hq [_ [_ Hans]]]]]]]; try reflexivity.
  exists state', s'. split; [exact Hrun|]. rewrite Hq. f_equal.
  exact (Hans _ eq_refl).
Defined.

(** with the completion service down, the recommendation is ERROR and its
    reasoning the message of the failure *)
Lemma recommendation_context_and_error_example :
  exists state',
    fst (@recommendation_node outage at_recommendation (start outage tt)) = Ok state' /\
    state' !! "recommendation" = Some (PStr "ERROR") /\
    state' !! "recommendation_reasoning" = Some (PStr "Connection error.").
Proof.
  destruct (@recommendation_context_and_error outage at_recommendation (start outage tt)
              (PStr "CLM-1") (PStr "AutoFix") (PInt 50) (PList []) "towing is covered")
    as [_ [_ [state' [Hrun Herror]]]]; try reflexivity.
  exists state'. rewrite Hrun. split; [reflexivity|exact Herror].
Defined.

Lemma retrieval_all_or_nothing_example :
  @retrieve_policy_text failing_collection
    (PList [PStr "towing"; PStr "limits"; PStr "vendors"]) (start failing_collection tt) =
    (Ok (PStr EmptyString),
     @CState failing_collection tt
       [CallQuery (PStr "towing") 3; CallQuery (PStr "limits") 3]).
Proof.
  exact (@retrieval_all_or_nothing failing_collection ["towing"] ["vendors"] "limits"
           (start failing_collection tt) tt tt ["chunk about towing"] ["towing"]
           (Exn OtherError "index unavailable") eq_refl eq_refl).
Defined.

(** a recommendation without its two fields: the recommendation node
    stores None twice, and the wrapper of the finalize tool raises inside
    the finalize node, before the completion service is called and
    before final_decision is assigned *)
Lemma empty_recommendation_run :
  let r := @process_claim empty_recommendation claim (start empty_recommendation tt) in
  fst r = Raise (validation_error "finalize_decision") /\
  nodes_entered (events (snd r)) =
    ["parse_claim"; "validate_claim"; "generate_queries"; "retrieve_policy";
     "recommendation"; "price_check"; "finalize_decision"] /\
  occurrences "final_decision" (assignments (events (snd r))) = 0.
Proof. vm_compute. repeat split. Qed.

(** queries that come back as one string are stored, and the wrapper of
    the retrieval tool raises inside the retrieval node *)
Lemma string_queries_run :
  let r := @process_claim string_queries claim (start string_queries tt) in
  fst r = Raise (validation_error "retrieve_policy_text") /\
  nodes_entered (events (snd r)) =
    ["parse_claim"; "validate_claim"; "generate_queries"; "retrieve_policy"] /\
  service_calls (events (snd r)) =
    map CallLLM
      [parse_prompt claim;
       validate_prompt (PStr "CLM-1") (PStr "Jane") (PStr "AutoFix") (PInt 50);
       queries_prompt (PStr "AutoFix") (PList []) (PInt 50)].
Proof. vm_compute. repeat split. Qed.

End Runs.
